(** * Recurring-transaction engine of the finance application

    A shallow embedding of
      - backend/src/models/RecurringTransaction.js
        (schema, [calculateNextOccurrence], the [pre('save')] hook,
        [getTransactionsToProcess]),
      - backend/src/controllers/transactionController.js
        ([createTransaction], [getTransactions], [getTransaction],
        [deleteTransaction]),
      - the recurring-transaction controller
        ([createRecurringTransaction], [getAllRecurringTransactions],
        [getRecurringTransaction], [updateRecurringTransaction],
        [toggleActiveStatus], [deleteRecurringTransaction],
        [processRecurringTransactions]),
      - the chat history model that follows the ledger model
        ([cleanupOldSessions], [addMessage], [getContext]),
    together with the part of the ECMAScript [Date] object these functions
    use, and the statements about them. *)

From Stdlib Require Import ZArith List String Ascii Bool Lia QArith.
From Stdlib Require Import Permutation Sorted.
Import ListNotations.
Local Open Scope string_scope.
Local Open Scope Z_scope.

(* ================================================================== *)
(** ** ECMAScript time values *)
(* ================================================================== *)

(** A JavaScript [Number] restricted to the integers the code computes with;
    [None] is [NaN] (which is also what [undefined] becomes in arithmetic). *)
Definition JsNum := option Z.

(** The time value of a [Date] object: [DateOf t] is [t] milliseconds since
    the epoch, [InvalidDate] is the [NaN] time value. *)
Inductive Date : Type :=
  | InvalidDate
  | DateOf (t : Z).

Definition msPerDay : Z := 86400000.

Definition Day (t : Z) : Z := t / msPerDay.
Definition TimeWithinDay (t : Z) : Z := t mod msPerDay.

Definition InLeapYear (y : Z) : bool :=
  ((y mod 4 =? 0) && negb (y mod 100 =? 0)) || (y mod 400 =? 0).

Definition DaysInYear (y : Z) : Z := if InLeapYear y then 366 else 365.

Definition DayFromYear (y : Z) : Z :=
  365 * (y - 1970) + (y - 1969) / 4 - (y - 1901) / 100 + (y - 1601) / 400.

(** The year that contains day number [d]: the largest [y] with
    [DayFromYear y <= d].  The estimate from the mean year length is off
    by at most one. *)
Definition YearFromDay (d : Z) : Z :=
  let y := 1970 + (d * 400) / 146097 in
  if DayFromYear (y + 1) <=? d then y + 1
  else if DayFromYear y <=? d then y
  else y - 1.

Definition YearFromTime (t : Z) : Z := YearFromDay (Day t).

Definition DayWithinYear (t : Z) : Z := Day t - DayFromYear (YearFromTime t).

(** Day number within the year on which month [m] (0..11) starts. *)
Definition MonthStart (leap : bool) (m : Z) : Z :=
  let l := if leap then 1 else 0 in
  match m with
  | 0 => 0
  | 1 => 31
  | 2 => 59 + l
  | 3 => 90 + l
  | 4 => 120 + l
  | 5 => 151 + l
  | 6 => 181 + l
  | 7 => 212 + l
  | 8 => 243 + l
  | 9 => 273 + l
  | 10 => 304 + l
  | 11 => 334 + l
  | _ => 365 + l
  end.

(** Length of month [m] (0..11). *)
Definition DaysInMonth (leap : bool) (m : Z) : Z :=
  MonthStart leap (m + 1) - MonthStart leap m.

Fixpoint month_scan (leap : bool) (dwy : Z) (m : Z) (fuel : nat) : Z :=
  match fuel with
  | O => m
  | S k => if dwy <? MonthStart leap (m + 1) then m
           else month_scan leap dwy (m + 1) k
  end.

Definition MonthFromTime (t : Z) : Z :=
  month_scan (InLeapYear (YearFromTime t)) (DayWithinYear t) 0 11.

Definition DateFromTime (t : Z) : Z :=
  DayWithinYear t
  - MonthStart (InLeapYear (YearFromTime t)) (MonthFromTime t) + 1.

Definition WeekDay (t : Z) : Z := (Day t + 4) mod 7.

(** [MakeDay] for finite integer arguments. *)
Definition MakeDay (year month date : Z) : Z :=
  let ym := year + month / 12 in
  let mn := month mod 12 in
  DayFromYear ym + MonthStart (InLeapYear ym) mn + date - 1.

Definition MakeDate (day time : Z) : Z := day * msPerDay + time.

Definition maxTime : Z := 8640000000000000.

Definition TimeClip (t : Z) : Date :=
  if Z.abs t <=? maxTime then DateOf t else InvalidDate.

(** JavaScript arithmetic on numbers that may be [NaN]. *)
Definition jsAdd (a b : JsNum) : JsNum :=
  match a, b with Some x, Some y => Some (x + y) | _, _ => None end.

Definition jsSub (a b : JsNum) : JsNum :=
  match a, b with Some x, Some y => Some (x - y) | _, _ => None end.

(** [%] truncates towards zero; a zero divisor gives [NaN]. *)
Definition jsRem (a b : JsNum) : JsNum :=
  match a, b with
  | Some x, Some y => if y =? 0 then None else Some (Z.rem x y)
  | _, _ => None
  end.

Definition jsStrictEqZ (a : JsNum) (k : Z) : bool :=
  match a with Some x => x =? k | None => false end.

Definition Math_min (a b : JsNum) : JsNum :=
  match a, b with Some x, Some y => Some (Z.min x y) | _, _ => None end.

(** [a > b] on dates compares time values; any comparison with [NaN] is
    false. *)
Definition Date_gt (a b : Date) : bool :=
  match a, b with DateOf x, DateOf y => y <? x | _, _ => false end.

(* ================================================================== *)
(** ** Documents *)
(* ================================================================== *)

(** A Mongo [ObjectId]. *)
Definition ObjectId := nat.

Inductive TxType : Type := income | expense.

Inductive Frequency : Type := daily | weekly | monthly | yearly.

(** A document field as the store sees it: the key may be absent, present
    with [null], or present with a value.  The two empty cases differ only
    for [$exists]. *)
Inductive Field (A : Type) : Type :=
  | Missing
  | Null
  | Val (a : A).
Arguments Missing {A}.
Arguments Null {A}.
Arguments Val {A} a.

(** The template schema of models/RecurringTransaction.js.  Dates kept in
    the store are valid time values; [None] is an unset ([null] or
    [undefined]) field.  [amount] is a finite [Number], kept as the rational
    it denotes ([parseFloat] of it is the same number). *)
Module RecurringTransaction.

Record doc : Type := mk {
  _id : ObjectId;
  userId : ObjectId;
  type : TxType;
  amount : Q;
  category : string;
  description : string;
  startDate : Z;
  endDate : Field Z;
  frequency : Frequency;
  dayOfMonth : JsNum;
  dayOfWeek : JsNum;
  month : JsNum;
  isActive : bool;
  lastProcessed : option Z;
  nextOccurrence : option Z
}.

Definition with_isActive (b : bool) (d : doc) : doc :=
  mk (_id d) (userId d) (type d) (amount d) (category d) (description d)
     (startDate d) (endDate d) (frequency d) (dayOfMonth d) (dayOfWeek d)
     (month d) b (lastProcessed d) (nextOccurrence d).

Definition with_lastProcessed (v : option Z) (d : doc) : doc :=
  mk (_id d) (userId d) (type d) (amount d) (category d) (description d)
     (startDate d) (endDate d) (frequency d) (dayOfMonth d) (dayOfWeek d)
     (month d) (isActive d) v (nextOccurrence d).

Definition with_nextOccurrence (v : option Z) (d : doc) : doc :=
  mk (_id d) (userId d) (type d) (amount d) (category d) (description d)
     (startDate d) (endDate d) (frequency d) (dayOfMonth d) (dayOfWeek d)
     (month d) (isActive d) (lastProcessed d) v.

Definition with_frequency (v : Frequency) (d : doc) : doc :=
  mk (_id d) (userId d) (type d) (amount d) (category d) (description d)
     (startDate d) (endDate d) v (dayOfMonth d) (dayOfWeek d)
     (month d) (isActive d) (lastProcessed d) (nextOccurrence d).

Definition with_endDate (v : Field Z) (d : doc) : doc :=
  mk (_id d) (userId d) (type d) (amount d) (category d) (description d)
     (startDate d) v (frequency d) (dayOfMonth d) (dayOfWeek d)
     (month d) (isActive d) (lastProcessed d) (nextOccurrence d).

Definition with_days (dom dow mo : JsNum) (d : doc) : doc :=
  mk (_id d) (userId d) (type d) (amount d) (category d) (description d)
     (startDate d) (endDate d) (frequency d) dom dow mo
     (isActive d) (lastProcessed d) (nextOccurrence d).

Definition with_shape (ty : TxType) (am : Q) (cat desc : string) (d : doc)
  : doc :=
  mk (_id d) (userId d) ty am cat desc
     (startDate d) (endDate d) (frequency d) (dayOfMonth d) (dayOfWeek d)
     (month d) (isActive d) (lastProcessed d) (nextOccurrence d).

End RecurringTransaction.

(** The ledger schema of models/Transaction.js (mongoose's own [_id] and
    [createdAt]/[updatedAt] stamps are left out). *)
Module Transaction.

Record doc : Type := mk {
  userId : ObjectId;
  type : TxType;
  amount : Q;
  category : string;
  description : string;
  date : Z;
  receiptId : option string;
  receiptUrl : option string;
  isFromReceipt : bool;
  isFromRecurring : bool;
  recurringTransactionId : option ObjectId;
  lastAccessed : Z
}.

End Transaction.

Import RecurringTransaction.

(* ================================================================== *)
(** ** Requests, replies and the environment *)
(* ================================================================== *)

(** [req.body] of a request to [createTransaction].  The last two keys are
    sent by [createRecurringTransaction]; [createTransaction] does not read
    them. *)
Module Body.

Record t : Type := mk {
  type : TxType;
  amount : Q;
  category : string;
  description : string;
  date : option Z;
  receiptId : option string;
  receiptUrl : option string;
  isFromRecurring : option bool;
  recurringTransactionId : option ObjectId
}.

End Body.

(** A request: its body, [req.userId], and the errors that
    [validationResult(req)] finds (none for a request that did not pass
    through a validation chain, as the mock requests). *)
Module Req.

Record t : Type := mk {
  body : Body.t;
  userId : ObjectId;
  validationErrors : list string
}.

End Req.

(** [req.body] of an update request: the schema paths it carries.  An
    absent key is [None] (for [endDate], [Missing]). *)
Module Patch.

Record t : Type := mk {
  type : option TxType;
  amount : option Q;
  category : option string;
  description : option string;
  startDate : option Z;
  endDate : Field Z;
  frequency : option Frequency;
  dayOfMonth : option Z;
  dayOfWeek : option Z;
  month : option Z;
  isActive : option bool;
  lastProcessed : option Z;
  nextOccurrence : option Z
}.

End Patch.

(** What a handler sends with [res.status(code).json(data)]. *)
Record Reply : Type := {
  statusCode : Z;
  message : string
}.

(** A thrown [Error], by its message. *)
Inductive JsError : Type := mkError (msg : string).

Inductive Completion (A : Type) : Type :=
  | Normal (a : A)
  | Throw (e : JsError).
Arguments Normal {A} a.
Arguments Throw {A} e.

(** How a route handler ends: it sends a response carrying the template, or
    hands an error to [next] (an [AppError] has a status code). *)
Inductive HandlerResult : Type :=
  | Responded (code : Z) (recurringTransaction : RecurringTransaction.doc)
  | PassedToNext (e : JsError) (code : option Z).

(** A record written with
    [logger.error(text, { error, recurringTransactionId })]. *)
Record LogRecord : Type := {
  logText : string;
  logError : string;
  logRecurringTransactionId : option ObjectId
}.

(** One [updateOne] of the bulk write: [filter: { _id }] and the three
    [$set] values. *)
Record UpdateOne : Type := {
  filter_id : ObjectId;
  set_lastProcessed : Z;
  set_nextOccurrence : option Date;
  set_isActive : bool
}.

(** The value of an object literal's property. *)
Inductive JsValue : Type :=
  | VBool (b : bool)
  | VNumber (n : Z)
  | VDate (t : Z).

(** An object literal: its properties in source order. *)
Definition JsObject := list (string * JsValue).

(** The two collections, and the records written with [logger.error]. *)
Record World : Type := {
  recurring : list RecurringTransaction.doc;
  transactions : list Transaction.doc;
  errorLog : list LogRecord
}.

(** How the store behaves during one call: each flag makes the named store
    operation reject. *)
Record Faults : Type := {
  insertFails : Transaction.doc -> bool;
  bulkWriteFails : bool;
  commitFails : bool
}.

Definition noFaults : Faults :=
  {| insertFails := fun _ => false;
     bulkWriteFails := false;
     commitFails := false |}.

(** A string stands for a JavaScript string whose UTF-16 code units are
    all below 256, one character for each code unit; [String.length] is
    then the [length] that [maxlength] counts.  Text with other code units
    is not modelled.

    The white space and line terminators that [String.prototype.trim]
    removes, among these code units: TAB, LF, VT, FF, CR, SP and NBSP. *)
Definition isWhiteSpace (c : ascii) : bool :=
  match N_of_ascii c with
  | 9%N | 10%N | 11%N | 12%N | 13%N | 32%N | 160%N => true
  | _ => false
  end.

Fixpoint trimStart (s : string) : string :=
  match s with
  | EmptyString => EmptyString
  | String c rest => if isWhiteSpace c then trimStart rest else s
  end.

Definition reverseString (s : string) : string :=
  string_of_list_ascii (rev (list_ascii_of_string s)).

Definition trim (s : string) : string :=
  reverseString (trimStart (reverseString (trimStart s))).

Definition inEnum (v : string) (values : list string) : bool :=
  existsb (String.eqb v) values.

(* ================================================================== *)
(** ** Further documents and requests *)
(* ================================================================== *)

(** [req.body] of a request to create a template: the schema paths it
    carries (as in an update body) and the [createInitialTransaction]
    flag. *)
Module CreateBody.

Record t : Type := mk {
  paths : Patch.t;
  createInitialTransaction : option bool
}.

End CreateBody.

(** What [RecurringTransaction.create] does with the new document: the
    schema validators refuse it, the insert hits a duplicate key (the
    store's error 11000), or the document is written in the session.  The
    verdict is the store's: it is [Accepted] only for a document whose
    [_id] no stored template has. *)
Inductive CreateVerdict : Type :=
  | Refused
  | DuplicateKey
  | Accepted.

(** How a handler that sends no template ends. *)
Inductive Answer : Type :=
  | Answered (code : Z)
  | Forwarded (e : JsError) (code : option Z).

(** A ledger document as the store keeps it: with its [_id] and the
    [createdAt] stamp of the schema's [timestamps] option. *)
Module Stored.

Record t : Type := mk {
  id : ObjectId;
  createdAt : Z;
  fields : Transaction.doc
}.

End Stored.

(** [req.query] of the transaction listing.  [page] and [limit] are the
    numbers [parseInt] reads (1 and 10 when the key is absent), taken
    positive as the query validation requires; the dates are parsed time
    values. *)
Module ListQuery.

Record t : Type := mk {
  page : positive;
  limit : positive;
  type : option string;
  category : option string;
  startDate : option Z;
  endDate : option Z;
  search : option string
}.

End ListQuery.

(** The [pagination] object of the listing. *)
Record Pagination : Type := {
  currentPage : Z;
  totalPages : Z;
  totalTransactions : Z;
  hasNext : bool;
  hasPrev : bool
}.

(** The chat history schema that models/Transaction.js carries after the
    ledger schema. *)
Module Chat.

Record message : Type := mkMessage {
  role : string;
  content : string;
  timestamp : Z
}.

Record t : Type := mk {
  messages : list message;
  lastActive : Z;
  isPinned : option bool
}.

End Chat.

(** [Array.prototype.slice(start)] for an integer [start]: a negative
    [start] counts from the end. *)
Definition jsSlice {A : Type} (start : Z) (l : list A) : list A :=
  let len := Z.of_nat (List.length l) in
  let k := if start <? 0 then Z.max (len + start) 0 else Z.min start len in
  skipn (Z.to_nat k) l.

(** [Math.ceil(a / b)] for integers [a >= 0], [b > 0]. *)
Definition ceilDiv (a b : Z) : Z := (a + b - 1) / b.

(** Sorting by a key order: each element is placed before the first one
    it does not come after. *)
Fixpoint placeBy {A : Type} (before : A -> A -> bool) (x : A)
    (sorted : list A) : list A :=
  match sorted with
  | [] => [x]
  | y :: rest =>
      if before x y then x :: y :: rest else y :: placeBy before x rest
  end.

Definition sortBy {A : Type} (before : A -> A -> bool) (l : list A)
  : list A :=
  fold_right (placeBy before) [] l.

(** Tactics for facts about concrete inputs: comparisons of computed
    numbers, and the distinctness of the ids of a given collection. *)
Ltac by_leb := apply Z.leb_le; vm_compute; reflexivity.
Ltac by_ltb := apply Z.ltb_lt; vm_compute; reflexivity.
Ltac distinct_ids := cbn; repeat constructor; cbn; intuition discriminate.

(* ================================================================== *)
(** ** The host: local time and [Date] methods *)
(* ================================================================== *)

Section Host.

(** The host's offset from UTC in milliseconds, taken as constant (a zone
    without daylight saving, such as UTC or Asia/Kolkata). *)
Variable LocalTZA : Z.

Definition LocalTime (t : Z) : Z := t + LocalTZA.
Definition UTC (t : Z) : Z := t - LocalTZA.

(** [new Date(value)] on a time value. *)
Definition newDate (t : Z) : Date := TimeClip t.

(** [new Date(year, month, date)]: local midnight; a year in 0..99 is
    taken in the twentieth century. *)
Definition newDateYMD (year month date : JsNum) : Date :=
  match year, month, date with
  | Some y, Some m, Some dt =>
      let yr := if (0 <=? y) && (y <=? 99) then 1900 + y else y in
      TimeClip (UTC (MakeDate (MakeDay yr m dt) 0))
  | _, _, _ => InvalidDate
  end.

Definition getFullYear (d : Date) : JsNum :=
  match d with
  | InvalidDate => None
  | DateOf t => Some (YearFromTime (LocalTime t))
  end.

Definition getMonth (d : Date) : JsNum :=
  match d with
  | InvalidDate => None
  | DateOf t => Some (MonthFromTime (LocalTime t))
  end.

Definition getDate (d : Date) : JsNum :=
  match d with
  | InvalidDate => None
  | DateOf t => Some (DateFromTime (LocalTime t))
  end.

Definition getDay (d : Date) : JsNum :=
  match d with
  | InvalidDate => None
  | DateOf t => Some (WeekDay (LocalTime t))
  end.

Definition setDate (d : Date) (date : JsNum) : Date :=
  match d, date with
  | DateOf u, Some dt =>
      let t := LocalTime u in
      TimeClip (UTC (MakeDate (MakeDay (YearFromTime t) (MonthFromTime t) dt)
                              (TimeWithinDay t)))
  | _, _ => InvalidDate
  end.

Definition setMonth (d : Date) (month : JsNum) : Date :=
  match d, month with
  | DateOf u, Some m =>
      let t := LocalTime u in
      TimeClip (UTC (MakeDate (MakeDay (YearFromTime t) m (DateFromTime t))
                              (TimeWithinDay t)))
  | _, _ => InvalidDate
  end.

(** [setFullYear] revives an invalid date at time value [+0]. *)
Definition setFullYear (d : Date) (year : JsNum) : Date :=
  let t := match d with
           | InvalidDate => 0
           | DateOf u => LocalTime u
           end in
  match year with
  | Some y =>
      TimeClip (UTC (MakeDate (MakeDay y (MonthFromTime t) (DateFromTime t))
                              (TimeWithinDay t)))
  | None => InvalidDate
  end.

(* ================================================================== *)
(** ** models/RecurringTransaction.js *)
(* ================================================================== *)

(** [new RecurringTransaction(rt)]: a document built from a stored one
    carries over every schema path. *)
Definition newRecurringTransaction (rt : doc) : doc := rt.

(** The first statements of [calculateNextOccurrence]:
    [new Date(this.nextOccurrence || this.startDate)], replaced by a copy of
    [this.nextOccurrence] when that lies after [now]. *)
Definition baseDate (this : doc) (now : Z) : Date :=
  let nextDate :=
    newDate (match nextOccurrence this with
             | Some n => n
             | None => startDate this
             end) in
  match nextOccurrence this with
  | Some n => if now <? n then newDate n else nextDate
  | None => nextDate
  end.

(** The [switch (this.frequency)] of [calculateNextOccurrence], acting on
    [nextDate]. *)
Definition stepDate (this : doc) (nextDate : Date) : Date :=
  match frequency this with
  | daily =>
      setDate nextDate (jsAdd (getDate nextDate) (Some 1))
  | weekly =>
      let targetDay := dayOfWeek this in
      let currentDay := getDay nextDate in
      let daysToAdd :=
        jsRem (jsAdd (jsSub targetDay currentDay) (Some 7)) (Some 7) in
      let daysToAdd :=
        if jsStrictEqZ daysToAdd 0 then Some 7 else daysToAdd in
      setDate nextDate (jsAdd (getDate nextDate) daysToAdd)
  | monthly =>
      let nextDate := setMonth nextDate (jsAdd (getMonth nextDate) (Some 1)) in
      let targetDayOfMonth :=
        Math_min (dayOfMonth this)
                 (getDate (newDateYMD (getFullYear nextDate)
                                      (jsAdd (getMonth nextDate) (Some 1))
                                      (Some 0))) in
      setDate nextDate targetDayOfMonth
  | yearly =>
      setFullYear nextDate (jsAdd (getFullYear nextDate) (Some 1))
  end.

(** The date the method has computed when it reaches the end-date test. *)
Definition candidateDate (this : doc) (now : Z) : Date :=
  stepDate this (baseDate this now).

(** [schema.methods.calculateNextOccurrence].  [now] is the reading of
    [new Date()] in the method; the result is [None] for [null] and a [Date]
    object (possibly invalid) otherwise.  The method declares no parameter,
    so an argument passed by a caller is dropped. *)
Definition calculateNextOccurrence (this : doc) (now : Z) : option Date :=
  if negb (isActive this) then None
  else
    let nextDate := candidateDate this now in
    match endDate this with
    | Val e => if Date_gt nextDate (DateOf e) then None else Some nextDate
    | _ => Some nextDate
    end.

(** Assigning to a [Date] path of a document inside [pre('save')], that
    is, after the document has been validated: [null] unsets it, a valid
    date is stored, and a value that does not cast (an invalid date)
    leaves the path as it was. *)
Definition assignDate (prev : option Z) (v : option Date) : option Z :=
  match v with
  | None => None
  | Some (DateOf t) => Some t
  | Some InvalidDate => prev
  end.

(** What [pre('save')] looks at: [isNew] and [isModified] of the three
    cadence paths. *)
Record SaveInfo : Type := {
  isNew : bool;
  modifiedFrequency : bool;
  modifiedStartDate : bool;
  modifiedEndDate : bool
}.

(** The [pre('save')] hook. *)
Definition preSave (info : SaveInfo) (now : Z) (this : doc) : doc :=
  if isNew info || modifiedFrequency info || modifiedStartDate info
     || modifiedEndDate info
  then
    let this := with_nextOccurrence (Some (startDate this)) this in
    if startDate this <? now
    then with_nextOccurrence
           (assignDate (nextOccurrence this) (calculateNextOccurrence this now))
           this
    else this
  else this.

(** The filter of [statics.getTransactionsToProcess]:
    [{ isActive: true, nextOccurrence: { $lte: now },
       $or: [ { endDate: { $exists: false } }, { endDate: { $gte: now } } ] }].
    A comparison operator matches only a value of the operand's type, so an
    unset [nextOccurrence] and a [null] [endDate] match neither branch. *)
Definition dueFilter (now : Z) (d : doc) : bool :=
  isActive d
  && match nextOccurrence d with
     | Some n => n <=? now
     | None => false
     end
  && match endDate d with
     | Missing => true
     | Val e => now <=? e
     | Null => false
     end.

(** [statics.getTransactionsToProcess] on the collection, in natural
    order. *)
Definition getTransactionsToProcess (collection : list doc) (now : Z)
  : list doc :=
  filter (dueFilter now) collection.

(* ================================================================== *)
(** ** models/Transaction.js and controllers/transactionController.js *)
(* ================================================================== *)

Definition transactionCategories : list string :=
  [ "Food & Dining"; "Transportation"; "Shopping"; "Entertainment";
    "Healthcare"; "Utilities"; "Education"; "Travel"; "Salary";
    "Business"; "Investment"; "Others" ].

(** The validator of [date]: not later than one year after [now]. *)
Definition dateValidator (now : Z) (v : Z) : bool :=
  let oneYearFromNow := newDate now in
  let oneYearFromNow :=
    setFullYear oneYearFromNow (jsAdd (getFullYear oneYearFromNow) (Some 1)) in
  match oneYearFromNow with
  | DateOf limit => v <=? limit
  | InvalidDate => false
  end.

(** Schema validation of a ledger document: [min]/[max] and the validator
    of [amount], the [enum] of [category], [maxlength] of [description]
    (counted in code units), and the validator of [date].  ([type] is in
    its enum by typing; the required paths are all present.) *)
Definition validateTransaction (now : Z) (t : Transaction.doc) : bool :=
  Qle_bool (1 # 100) (Transaction.amount t)
  && Qle_bool (Transaction.amount t) (10000000 # 1)
  && negb (Qle_bool (Transaction.amount t) 0)
  && inEnum (Transaction.category t) transactionCategories
  && (String.length (Transaction.description t) <=? 200)%nat
  && dateValidator now (Transaction.date t).

Definition truthyString (o : option string) : bool :=
  match o with
  | Some s => negb (String.eqb s "")
  | None => false
  end.

(** [new Transaction({...})] as [createTransaction] builds it: the schema
    trims the string paths and fills [isFromRecurring],
    [recurringTransactionId] and [lastAccessed] with their defaults, since
    the constructor is given no value for them. *)
Definition newTransaction (now : Z) (req : Req.t) : Transaction.doc :=
  let b := Req.body req in
  let receiptId :=
    if truthyString (Body.receiptId b) then Body.receiptId b else None in
  let receiptUrl :=
    if truthyString (Body.receiptUrl b) then Body.receiptUrl b else None in
  {| Transaction.userId := Req.userId req;
     Transaction.type := Body.type b;
     Transaction.amount := Body.amount b;
     Transaction.category := trim (Body.category b);
     Transaction.description := trim (Body.description b);
     Transaction.date := match Body.date b with
                         | Some d => d
                         | None => now
                         end;
     Transaction.receiptId := option_map trim receiptId;
     Transaction.receiptUrl := option_map trim receiptUrl;
     Transaction.isFromReceipt := truthyString (Body.receiptId b);
     Transaction.isFromRecurring := false;
     Transaction.recurringTransactionId := None;
     Transaction.lastAccessed := now |}.

(** A response object, by what [res.status(code).json(data)] does with the
    reply: Express sends it; the mock response of the recurring controller
    throws when the status is 400 or more. *)
Definition Response := Reply -> Completion unit.

Definition expressRes : Response := fun _ => Normal tt.

Definition mockRes (fallback : string) : Response :=
  fun r =>
    if 400 <=? statusCode r
    then Throw (mkError (if String.eqb (message r) "" then fallback
                         else message r))
    else Normal tt.

(** [createTransaction(req, res)]: how the call completes and the ledger
    after it.  [transaction.save()] validates and then inserts, outside any
    session; either can reject.  Whatever is thrown inside the [try],
    including by [res], lands in the [catch], which answers 500. *)
Definition createTransaction (F : Faults) (now : Z) (req : Req.t)
    (res : Response) (ledger : list Transaction.doc)
  : Completion unit * list Transaction.doc :=
  let attempt : Completion unit * list Transaction.doc :=
    match Req.validationErrors req with
    | _ :: _ =>
        (res {| statusCode := 400; message := "Validation failed" |}, ledger)
    | [] =>
        let transaction := newTransaction now req in
        if validateTransaction now transaction
           && negb (insertFails F transaction)
        then (res {| statusCode := 201;
                     message := "Transaction created successfully" |},
              (ledger ++ [transaction])%list)
        else (Throw (mkError "save rejected"), ledger)
    end in
  match attempt with
  | (Throw _, ledger') =>
      (res {| statusCode := 500; message := "Failed to create transaction" |},
       ledger')
  | done => done
  end.

(* ================================================================== *)
(** ** The recurring-transaction controller *)
(* ================================================================== *)

(** [description || `Recurring: ${category}`]. *)
Definition descriptionOrDefault (description category : string) : string :=
  if String.eqb description "" then "Recurring: " ++ category
  else description.

(** The mock request built in the loop of [processRecurringTransactions]. *)
Definition mockReq (rt : doc) : Req.t :=
  {| Req.body :=
       {| Body.type := type rt;
          Body.amount := amount rt;
          Body.category := category rt;
          Body.description :=
            descriptionOrDefault (description rt) (category rt);
          Body.date := nextOccurrence rt;
          Body.receiptId := None;
          Body.receiptUrl := None;
          Body.isFromRecurring := None;
          Body.recurringTransactionId := None |};
     Req.userId := userId rt;
     Req.validationErrors := [] |}.

(** The mock request built by [createRecurringTransaction] for the initial
    entry. *)
Definition initialMockReq (rt : doc) : Req.t :=
  {| Req.body :=
       {| Body.type := type rt;
          Body.amount := amount rt;
          Body.category := category rt;
          Body.description :=
            descriptionOrDefault (description rt) (category rt);
          Body.date := nextOccurrence rt;
          Body.receiptId := None;
          Body.receiptUrl := None;
          Body.isFromRecurring := Some true;
          Body.recurringTransactionId := Some (_id rt) |};
     Req.userId := userId rt;
     Req.validationErrors := [] |}.

(** The state of the [for] loop: [processedCount], [recurringUpdates], and
    the ledger and error log as they stand. *)
Record LoopState : Type := {
  processedCount : nat;
  recurringUpdates : list UpdateOne;
  ledger : list Transaction.doc;
  loopLog : list LogRecord
}.

(** One iteration of the loop over the selected templates: the [try] body
    and its [catch]. *)
Definition processOne (F : Faults) (now : Z) (s : LoopState) (rt : doc)
  : LoopState :=
  let (completion, ledger') :=
    createTransaction F now (mockReq rt)
                      (mockRes "Failed to create transaction") (ledger s) in
  match completion with
  | Throw (mkError processError) =>
      {| processedCount := processedCount s;
         recurringUpdates := recurringUpdates s;
         ledger := ledger';
         loopLog := (loopLog s ++
           [ {| logText := "Error processing recurring transaction:";
                logError := processError;
                logRecurringTransactionId := Some (_id rt) |} ])%list |}
  | Normal _ =>
      let nextOcc := calculateNextOccurrence (newRecurringTransaction rt) now in
      let isActive' := match nextOcc with Some _ => true | None => false end in
      {| processedCount := S (processedCount s);
         recurringUpdates := (recurringUpdates s ++
           [ {| filter_id := _id rt;
                set_lastProcessed := now;
                set_nextOccurrence :=
                  match nextOcc with
                  | Some d => Some d
                  | None => option_map DateOf (nextOccurrence rt)
                  end;
                set_isActive := isActive' |} ])%list;
         ledger := ledger';
         loopLog := loopLog s |}
  end.

(** Applying [$set] of one update to a document (an update whose date does
    not cast is refused by [bulkWrite] before anything is applied). *)
Definition applySet (u : UpdateOne) (d : doc) : doc :=
  with_isActive (set_isActive u)
    (with_nextOccurrence (assignDate None (set_nextOccurrence u))
       (with_lastProcessed (Some (set_lastProcessed u)) d)).

(** [updateOne] with [filter: { _id }]: the first document with that id. *)
Fixpoint updateOne (u : UpdateOne) (collection : list doc) : list doc :=
  match collection with
  | [] => []
  | d :: rest =>
      if Nat.eqb (_id d) (filter_id u) then applySet u d :: rest
      else d :: updateOne u rest
  end.

(** An update casts when the date it sets is not an invalid date. *)
Definition castsUpdate (u : UpdateOne) : bool :=
  match set_nextOccurrence u with
  | Some InvalidDate => false
  | _ => true
  end.

(** [RecurringTransaction.bulkWrite(ops, { session })]: rejects when the
    store does or when an operation does not cast; otherwise the operations
    apply in order.  The result is what the session has staged. *)
Definition bulkWrite (F : Faults) (ops : list UpdateOne)
    (collection : list doc) : Completion (list doc) :=
  if bulkWriteFails F then Throw (mkError "bulk write failed")
  else if forallb castsUpdate ops
  then Normal (fold_left (fun c u => updateOne u c) ops collection)
  else Throw (mkError "Cast to date failed").

Definition loopStart (w : World) : LoopState :=
  {| processedCount := 0;
     recurringUpdates := [];
     ledger := transactions w;
     loopLog := errorLog w |}.

(** The outer [catch]: the session is aborted, so the template collection
    is as before the call; ledger entries were saved outside the session
    and stay; the error is logged and thrown again. *)
Definition abortCycle (w : World) (s : LoopState) (e : JsError)
  : Completion JsObject * World :=
  let 'mkError m := e in
  (Throw e,
   {| recurring := recurring w;
      transactions := ledger s;
      errorLog := (loopLog s ++
        [ {| logText := "Error processing recurring transactions:";
             logError := m;
             logRecurringTransactionId := None |} ])%list |}).

(** What a method is called on in the selection statement: a mongoose
    [Query], or the [Promise] that a call of an [async] function gives. *)
Inductive Receiver (A : Type) : Type :=
  | AQuery (yields : A)
  | APromise (resolvesTo : A).
Arguments AQuery {A} yields.
Arguments APromise {A} resolvesTo.

(** [RecurringTransaction.getTransactionsToProcess()]: the static is
    declared [async], so the call gives a promise, here of the documents
    that the query returned by its body yields. *)
Definition callGetTransactionsToProcess (collection : list doc) (now : Z)
  : Receiver (list doc) :=
  APromise (getTransactionsToProcess collection now).

(** The [TypeError] of calling the property [session] of a promise,
    which is [undefined]. *)
Definition sessionTypeError : JsError :=
  mkError
    "RecurringTransaction.getTransactionsToProcess(...).session is not a function".

(** [receiver.session(session)]: a method of a query; on a promise the
    call throws. *)
Definition callSession {A : Type} (receiver : Receiver A)
  : Completion (Receiver A) :=
  match receiver with
  | AQuery yields => Normal (AQuery yields)
  | APromise _ => Throw sessionTypeError
  end.

(** The selection statement,
    [await RecurringTransaction.getTransactionsToProcess().session(session).lean()]. *)
Definition selectionStatement (collection : list doc) (now : Z)
  : Completion (list doc) :=
  match callSession (callGetTransactionsToProcess collection now) with
  | Throw e => Throw e
  | Normal (AQuery yields) => Normal yields
  | Normal (APromise _) =>
      Throw (mkError
        "RecurringTransaction.getTransactionsToProcess(...).session(...).lean is not a function")
  end.

(** [processRecurringTransactions], the function wrapped by [catchAsync].
    Every [new Date()] of the call reads the same clock, [now].  The
    [try] body starts with the selection statement; what it throws, like
    what the bulk write or the commit throws, lands in the outer
    [catch]. *)
Definition processRecurringTransactions (F : Faults) (now : Z) (w : World)
  : Completion JsObject * World :=
  match selectionStatement (recurring w) now with
  | Throw e => abortCycle w (loopStart w) e
  | Normal recurringTransactions =>
      let s :=
        fold_left (processOne F now) recurringTransactions (loopStart w) in
      let staged :=
        match recurringUpdates s with
        | [] => Normal (recurring w)
        | _ :: _ => bulkWrite F (recurringUpdates s) (recurring w)
        end in
      match staged with
      | Throw e => abortCycle w s e
      | Normal collection' =>
          if commitFails F then abortCycle w s (mkError "commit failed")
          else
            (Normal [ ("success", VBool true);
                      ("processed", VNumber (Z.of_nat (processedCount s)));
                      ("timestamp", VDate now) ],
             {| recurring := collection';
                transactions := ledger s;
                errorLog := loopLog s |})
      end
  end.

(** [findOne({ _id: id, userId })]. *)
Definition findOne (id user : ObjectId) (collection : list doc) : option doc :=
  find (fun d => Nat.eqb (_id d) id && Nat.eqb (userId d) user) collection.

(** Writing a document back: the first document with its id is replaced. *)
Fixpoint replaceDoc (d' : doc) (collection : list doc) : list doc :=
  match collection with
  | [] => []
  | d :: rest =>
      if Nat.eqb (_id d) (_id d') then d' :: rest
      else d :: replaceDoc d' rest
  end.

(** [document.save()] of an existing template: validation (the required
    [nextOccurrence] must be set; the other required paths are present by
    typing), then [pre('save')], then the write. *)
Definition saveDocument (info : SaveInfo) (now : Z) (d : doc)
    (collection : list doc) : Completion doc * list doc :=
  match nextOccurrence d with
  | None =>
      (Throw (mkError "Path `nextOccurrence` is required."), collection)
  | Some _ =>
      let d' := preSave info now d in
      (Normal d', replaceDoc d' collection)
  end.

Definition unmodifiedCadence : SaveInfo :=
  {| isNew := false;
     modifiedFrequency := false;
     modifiedStartDate := false;
     modifiedEndDate := false |}.

(** [toggleActiveStatus] (the controller defines it twice, with the same
    body).  It calls [calculateNextOccurrence(now)]; the method takes no
    parameter.  Assigning an invalid date to [nextOccurrence] records a
    cast error on the document, with which the [save()] that follows
    rejects: the [catch] aborts and hands the error to [next]. *)
Definition toggleActiveStatus (now : Z) (id user : ObjectId)
    (collection : list doc) : HandlerResult * list doc :=
  match findOne id user collection with
  | None =>
      (PassedToNext (mkError "No recurring transaction found with that ID")
                    (Some 404), collection)
  | Some recurringTransaction =>
      let recurringTransaction :=
        with_isActive (negb (isActive recurringTransaction))
                      recurringTransaction in
      let stale :=
        match nextOccurrence recurringTransaction with
        | None => true
        | Some n => n <? now
        end in
      let checked : HandlerResult + doc :=
        if isActive recurringTransaction && stale
        then
          match calculateNextOccurrence
                  (newRecurringTransaction recurringTransaction) now with
          | None =>
              inl (PassedToNext
                     (mkError "Cannot activate - no valid future occurrences")
                     (Some 400))
          | Some InvalidDate =>
              inl (PassedToNext
                     (mkError "Cast to date failed at path nextOccurrence")
                     None)
          | Some (DateOf t) =>
              inr (with_nextOccurrence (Some t) recurringTransaction)
          end
        else inr recurringTransaction in
      match checked with
      | inl rejected => (rejected, collection)
      | inr recurringTransaction =>
          match saveDocument unmodifiedCadence now recurringTransaction
                             collection with
          | (Throw e, c) => (PassedToNext e None, c)
          | (Normal saved, c) => (Responded 200 saved, c)
          end
      end
  end.

Definition orKeep {A : Type} (new : option A) (old : A) : A :=
  match new with
  | Some v => v
  | None => old
  end.

(** The update document applied to a template: each key of the body sets
    its path. *)
Definition applyPatch (p : Patch.t) (d : doc) : doc :=
  {| _id := _id d;
     userId := userId d;
     type := orKeep (Patch.type p) (type d);
     amount := orKeep (Patch.amount p) (amount d);
     category := orKeep (option_map trim (Patch.category p)) (category d);
     description :=
       orKeep (option_map trim (Patch.description p)) (description d);
     startDate := orKeep (Patch.startDate p) (startDate d);
     endDate := match Patch.endDate p with
                | Missing => endDate d
                | v => v
                end;
     frequency := orKeep (Patch.frequency p) (frequency d);
     dayOfMonth := match Patch.dayOfMonth p with
                   | Some v => Some v
                   | None => dayOfMonth d
                   end;
     dayOfWeek := match Patch.dayOfWeek p with
                  | Some v => Some v
                  | None => dayOfWeek d
                  end;
     month := match Patch.month p with
              | Some v => Some v
              | None => month d
              end;
     isActive := orKeep (Patch.isActive p) (isActive d);
     lastProcessed := match Patch.lastProcessed p with
                      | Some v => Some v
                      | None => lastProcessed d
                      end;
     nextOccurrence := match Patch.nextOccurrence p with
                       | Some v => Some v
                       | None => nextOccurrence d
                       end |}.

(** [updateRecurringTransaction]:
    [findOneAndUpdate({ _id: id, userId }, req.body, { new: true,
    runValidators: true })].  [validatorsPass] is the verdict of the update
    validators on the body.  The operation is a query, not a [save]: no
    [pre('save')] hook runs. *)
Definition updateRecurringTransaction (validatorsPass : bool)
    (id user : ObjectId) (body : Patch.t) (collection : list doc)
  : HandlerResult * list doc :=
  if negb validatorsPass
  then (PassedToNext (mkError "Validation failed") None, collection)
  else
    match findOne id user collection with
    | None =>
        (PassedToNext (mkError "No recurring transaction found with that ID")
                      (Some 404), collection)
    | Some d =>
        let recurringTransaction := applyPatch body d in
        (Responded 200 recurringTransaction,
         replaceDoc recurringTransaction collection)
    end.

(* ================================================================== *)
(** ** The recurring-transaction controller: create, read, delete *)
(* ================================================================== *)

(** The [enum] of [category] in the template schema. *)
Definition recurringCategories : list string :=
  [ "Food & Dining"; "Transportation"; "Shopping"; "Entertainment";
    "Healthcare"; "Utilities"; "Education"; "Travel"; "Salary";
    "Business"; "Investment"; "Rent/Mortgage"; "Subscriptions"; "Others" ].

(** [!value] for a number of the body: [undefined] and [0] are falsy. *)
Definition falsyNumber (v : option Z) : bool :=
  match v with
  | None => true
  | Some 0 => true
  | Some _ => false
  end.

Definition isSome {A : Type} (o : option A) : bool :=
  match o with
  | Some _ => true
  | None => false
  end.

Definition frequencyIs (f : Frequency) (o : option Frequency) : bool :=
  match o, f with
  | Some daily, daily | Some weekly, weekly
  | Some monthly, monthly | Some yearly, yearly => true
  | _, _ => false
  end.

(** The three guards at the head of [createRecurringTransaction]. *)
Definition missingCadenceField (p : Patch.t) : bool :=
  (frequencyIs monthly (Patch.frequency p) && falsyNumber (Patch.dayOfMonth p))
  || (frequencyIs weekly (Patch.frequency p)
      && negb (isSome (Patch.dayOfWeek p)))
  || (frequencyIs yearly (Patch.frequency p)
      && negb (isSome (Patch.month p))).

(** The document [RecurringTransaction.create] builds from
    [{ ...req.body, userId }]: the schema defaults fill [description],
    [startDate] and [isActive]; a required path without default is missing
    when the body does not carry it.  [newId] is the [_id] the document
    gets. *)
Definition buildTemplate (newId user : ObjectId) (now : Z) (p : Patch.t)
  : option doc :=
  match Patch.type p, Patch.amount p, Patch.category p, Patch.frequency p with
  | Some ty, Some am, Some cat, Some fr =>
      Some {| _id := newId;
              userId := user;
              type := ty;
              amount := am;
              category := trim cat;
              description := trim (orKeep (Patch.description p) "");
              startDate := orKeep (Patch.startDate p) now;
              endDate := Patch.endDate p;
              frequency := fr;
              dayOfMonth := Patch.dayOfMonth p;
              dayOfWeek := Patch.dayOfWeek p;
              month := Patch.month p;
              isActive := orKeep (Patch.isActive p) true;
              lastProcessed := Patch.lastProcessed p;
              nextOccurrence := Patch.nextOccurrence p |}
  | _, _, _, _ => None
  end.

Definition newDocument : SaveInfo :=
  {| isNew := true;
     modifiedFrequency := false;
     modifiedStartDate := false;
     modifiedEndDate := false |}.

(** The [catch] of a lifecycle handler: the session is aborted, the error
    is logged under [text] and handed to [next]. *)
Definition abortHandler (text : string) (w : World)
    (ledger : list Transaction.doc) (e : JsError) : World :=
  let 'mkError m := e in
  {| recurring := recurring w;
     transactions := ledger;
     errorLog := (errorLog w ++
       [ {| logText := text;
            logError := m;
            logRecurringTransactionId := None |} ])%list |}.

(** [createRecurringTransaction].  [verdict] is what
    [RecurringTransaction.create] does with the new document; when it is
    accepted, [pre('save')] has run on it and it is written in the session.
    The initial entry is saved through [createTransaction], outside the
    session.  The [catch] answers a duplicate-key error with an [AppError]
    of status 400 and hands any other error to [next] as it is. *)
Definition createRecurringTransaction (F : Faults) (verdict : CreateVerdict)
    (newId : ObjectId) (now : Z) (user : ObjectId) (body : CreateBody.t)
    (w : World) : HandlerResult * World :=
  let p := CreateBody.paths body in
  if frequencyIs monthly (Patch.frequency p)
     && falsyNumber (Patch.dayOfMonth p)
  then (PassedToNext
          (mkError "Day of month is required for monthly frequency")
          (Some 400), w)
  else if frequencyIs weekly (Patch.frequency p)
          && negb (isSome (Patch.dayOfWeek p))
  then (PassedToNext
          (mkError "Day of week is required for weekly frequency")
          (Some 400), w)
  else if frequencyIs yearly (Patch.frequency p)
          && negb (isSome (Patch.month p))
  then (PassedToNext (mkError "Month is required for yearly frequency")
                     (Some 400), w)
  else
    let failed := abortHandler "Error creating recurring transaction:" w in
    match verdict, buildTemplate newId user now p with
    | Accepted, Some built =>
        let recurringTransaction := preSave newDocument now built in
        let (completion, ledger') :=
          match CreateBody.createInitialTransaction body with
          | Some false => (Normal tt, transactions w)
          | _ =>
              createTransaction F now (initialMockReq recurringTransaction)
                (mockRes "Failed to create initial transaction")
                (transactions w)
          end in
        match completion with
        | Throw e => (PassedToNext e None, failed ledger' e)
        | Normal _ =>
            if commitFails F
            then let e := mkError "commit failed" in
                 (PassedToNext e None, failed ledger' e)
            else
              (Responded 201 recurringTransaction,
               {| recurring := (recurring w ++ [recurringTransaction])%list;
                  transactions := ledger';
                  errorLog := errorLog w |})
        end
    | DuplicateKey, Some _ =>
        (PassedToNext
           (mkError "A similar recurring transaction already exists")
           (Some 400),
         failed (transactions w) (mkError "E11000 duplicate key error"))
    | _, _ =>
        let e := mkError "Validation failed" in
        (PassedToNext e None, failed (transactions w) e)
    end.

(** [{ userId }] with [isActive] added for [status] 'active' or
    'inactive'. *)
Definition statusFilter (status : option string) (d : doc) : bool :=
  match status with
  | Some st =>
      if String.eqb st "active" then isActive d
      else if String.eqb st "inactive" then negb (isActive d)
      else true
  | None => true
  end.

(** Ascending order of [nextOccurrence]; an unset value sorts first. *)
Definition nextOccurrenceBefore (a b : doc) : bool :=
  match nextOccurrence a, nextOccurrence b with
  | None, _ => true
  | Some _, None => false
  | Some x, Some y => x <=? y
  end.

(** [getAllRecurringTransactions]: the templates of the user, filtered by
    [req.query.status], sorted by [nextOccurrence]. *)
Definition getAllRecurringTransactions (status : option string)
    (user : ObjectId) (collection : list doc) : list doc :=
  sortBy nextOccurrenceBefore
    (filter (fun d => Nat.eqb (userId d) user && statusFilter status d)
            collection).

(** [getRecurringTransaction]. *)
Definition getRecurringTransaction (id user : ObjectId)
    (collection : list doc) : HandlerResult :=
  match findOne id user collection with
  | None =>
      PassedToNext (mkError "No recurring transaction found with that ID")
                   (Some 404)
  | Some recurringTransaction => Responded 200 recurringTransaction
  end.

(** [findOneAndDelete({ _id: id, userId })]: the first match is removed. *)
Fixpoint removeDoc (id user : ObjectId) (collection : list doc) : list doc :=
  match collection with
  | [] => []
  | d :: rest =>
      if Nat.eqb (_id d) id && Nat.eqb (userId d) user then rest
      else d :: removeDoc id user rest
  end.

(** [deleteRecurringTransaction]: the template is removed in the session
    and the ledger is not touched. *)
Definition deleteRecurringTransaction (F : Faults) (id user : ObjectId)
    (w : World) : Answer * World :=
  match findOne id user (recurring w) with
  | None =>
      (Forwarded (mkError "No recurring transaction found with that ID")
                 (Some 404), w)
  | Some _ =>
      if commitFails F
      then let e := mkError "commit failed" in
           (Forwarded e None,
            abortHandler "Error deleting recurring transaction:" w
                         (transactions w) e)
      else (Answered 204,
            {| recurring := removeDoc id user (recurring w);
               transactions := transactions w;
               errorLog := errorLog w |})
  end.

(* ================================================================== *)
(** ** controllers/transactionController.js: listing, reading, deleting *)
(* ================================================================== *)

Definition MakeTime (hour min sec ms : Z) : Z :=
  hour * 3600000 + min * 60000 + sec * 1000 + ms.

(** [setHours(hour, min, sec, ms)]. *)
Definition setHours (d : Date) (hour min sec ms : Z) : Date :=
  match d with
  | InvalidDate => InvalidDate
  | DateOf u =>
      TimeClip (UTC (MakeDate (Day (LocalTime u)) (MakeTime hour min sec ms)))
  end.

Definition typeOfString (s : string) : option TxType :=
  if String.eqb s "income" then Some income
  else if String.eqb s "expense" then Some expense
  else None.

Definition TxType_eqb (a b : TxType) : bool :=
  match a, b with
  | income, income | expense, expense => true
  | _, _ => false
  end.

Definition nonEmpty (o : option string) : option string :=
  match o with
  | Some s => if String.eqb s "" then None else Some s
  | None => None
  end.

(** The bounds of [filter.date]: [$gte] the start, [$lte] the end of the
    end day (in local time); [None] when a bound is an invalid date. *)
Definition dateBounds (q : ListQuery.t) : option (option Z * option Z) :=
  let lower :=
    match ListQuery.startDate q with
    | None => Some None
    | Some s =>
        match newDate s with
        | DateOf t => Some (Some t)
        | InvalidDate => None
        end
    end in
  let upper :=
    match ListQuery.endDate q with
    | None => Some None
    | Some e =>
        match setHours (newDate e) 23 59 59 999 with
        | DateOf t => Some (Some t)
        | InvalidDate => None
        end
    end in
  match lower, upper with
  | Some l, Some u => Some (l, u)
  | _, _ => None
  end.

(** The filter that [getTransactions] builds.  [regexTest pattern text] is
    the case-insensitive [$regex] match.  A search replaces the [$or] on
    [isFromRecurring]. *)
Definition listFilter (regexTest : string -> string -> bool)
    (q : ListQuery.t) (user : ObjectId) (bounds : option Z * option Z)
    (s : Stored.t) : bool :=
  let d := Stored.fields s in
  Nat.eqb (Transaction.userId d) user
  && match nonEmpty (ListQuery.search q) with
     | Some pattern =>
         regexTest pattern (Transaction.description d)
         || regexTest pattern (Transaction.category d)
     | None => negb (Transaction.isFromRecurring d)
     end
  && match nonEmpty (ListQuery.type q) with
     | Some ty =>
         match typeOfString ty with
         | Some t => TxType_eqb (Transaction.type d) t
         | None => true
         end
     | None => true
     end
  && match nonEmpty (ListQuery.category q) with
     | Some c => String.eqb (Transaction.category d) c
     | None => true
     end
  && match fst bounds with
     | Some l => l <=? Transaction.date d
     | None => true
     end
  && match snd bounds with
     | Some u => Transaction.date d <=? u
     | None => true
     end.

(** [sort({ date: -1, createdAt: -1 })]: the order of the keys.  The
    store does not fix the order among transactions with the same [date]
    and [createdAt]; [sortBy] keeps them in store order, and a statement
    that depends on the order of a whole listing assumes the keys
    distinct. *)
Definition newerFirst (a b : Stored.t) : bool :=
  let da := Transaction.date (Stored.fields a) in
  let db := Transaction.date (Stored.fields b) in
  (db <? da) || ((da =? db) && (Stored.createdAt b <=? Stored.createdAt a)).

(** The [pagination] object of [getTransactions]. *)
Definition paginationOf (pageNum limitNum total : Z) : Pagination :=
  let pages := ceilDiv total limitNum in
  {| currentPage := pageNum;
     totalPages := pages;
     totalTransactions := total;
     hasNext := pageNum <? pages;
     hasPrev := 1 <? pageNum |}.

(** The page [skip((pageNum - 1) * limitNum).limit(limitNum)] cuts out of
    the sorted matches. *)
Definition pageOf {A : Type} (pageNum limitNum : positive) (found : list A)
  : list A :=
  firstn (Pos.to_nat limitNum)
         (skipn (Z.to_nat ((Z.pos pageNum - 1) * Z.pos limitNum)) found).

(** [getTransactions]: the page and the pagination object, or the 500 of
    the [catch]. *)
Definition getTransactions (regexTest : string -> string -> bool)
    (q : ListQuery.t) (user : ObjectId) (store : list Stored.t)
  : (list Stored.t * Pagination) + Reply :=
  match dateBounds q with
  | None =>
      inr {| statusCode := 500;
             message := "Failed to retrieve transactions" |}
  | Some bounds =>
      let matching := filter (listFilter regexTest q user bounds) store in
      let found := sortBy newerFirst matching in
      let total := Z.of_nat (List.length matching) in
      inl (pageOf (ListQuery.page q) (ListQuery.limit q) found,
           paginationOf (Z.pos (ListQuery.page q))
                        (Z.pos (ListQuery.limit q)) total)
  end.

(** [hasNext] as the route handler of the same listing computes it:
    [parseInt(page) * parseInt(limit) < total]. *)
Definition routeHasNext (pageNum limitNum total : Z) : bool :=
  pageNum * limitNum <? total.

Definition findStored (id user : ObjectId) (store : list Stored.t)
  : option Stored.t :=
  find (fun s => Nat.eqb (Stored.id s) id
                 && Nat.eqb (Transaction.userId (Stored.fields s)) user)
       store.

(** [getTransaction]: the reply and the transaction it carries. *)
Definition getTransaction (id user : ObjectId) (store : list Stored.t)
  : Reply * option Stored.t :=
  match findStored id user store with
  | None =>
      ({| statusCode := 404; message := "Transaction not found" |}, None)
  | Some transaction =>
      ({| statusCode := 200; message := "" |}, Some transaction)
  end.

Fixpoint removeStored (id user : ObjectId) (store : list Stored.t)
  : list Stored.t :=
  match store with
  | [] => []
  | s :: rest =>
      if Nat.eqb (Stored.id s) id
         && Nat.eqb (Transaction.userId (Stored.fields s)) user
      then rest
      else s :: removeStored id user rest
  end.

(** [deleteTransaction]: [findOneAndDelete({ _id: id, userId })]. *)
Definition deleteTransaction (id user : ObjectId) (store : list Stored.t)
  : Reply * list Stored.t :=
  match findStored id user store with
  | None =>
      ({| statusCode := 404; message := "Transaction not found" |}, store)
  | Some _ =>
      ({| statusCode := 200;
          message := "Transaction deleted successfully" |},
       removeStored id user store)
  end.

(* ================================================================== *)
(** ** The chat history model *)
(* ================================================================== *)

(** [addMessage(role, content)] up to the [save()] it returns: the message
    is pushed with the default [timestamp] (the clock reading [stamp]),
    [lastActive] is set to [new Date()], and only the last 100 messages
    are kept. *)
Definition addMessage (role content : string) (stamp now : Z)
    (this : Chat.t) : Chat.t :=
  let pushed :=
    (Chat.messages this ++ [Chat.mkMessage role content stamp])%list in
  {| Chat.messages :=
       if (100 <? List.length pushed)%nat then jsSlice (-100) pushed
       else pushed;
     Chat.lastActive := now;
     Chat.isPinned := Chat.isPinned this |}.

(** [getContext(limit = 10)]: [this.messages.slice(-limit)]. *)
Definition getContext (limit : option Z) (this : Chat.t)
  : list Chat.message :=
  jsSlice (- orKeep limit 10) (Chat.messages this).

(** [cleanupOldSessions(days = 30)]: the sessions that [deleteMany] leaves,
    for the filter [{ lastActive: { $lt: cutoffDate },
    'metadata.isPinned': { $ne: true } }]; the call rejects when the cutoff
    is an invalid date.  The schema does not declare [metadata.isPinned]:
    with [strictQuery] on, the condition on it is dropped from the
    filter. *)
Definition cleanupOldSessions (strictQuery : bool) (days : option Z)
    (now : Z) (sessions : list Chat.t) : Completion (list Chat.t) :=
  let cutoffDate := newDate now in
  let cutoffDate :=
    setDate cutoffDate
            (jsSub (getDate cutoffDate) (Some (orKeep days 30))) in
  match cutoffDate with
  | InvalidDate => Throw (mkError "Cast to date failed")
  | DateOf cutoff =>
      Normal (filter
                (fun s =>
                   negb ((Chat.lastActive s <? cutoff)
                         && (strictQuery
                             || negb match Chat.isPinned s with
                                     | Some true => true
                                     | _ => false
                                     end)))
                sessions)
  end.

(* ================================================================== *)
(** ** Vocabulary of the statements *)
(* ================================================================== *)

(** The record that the outer [catch] of the batch processor logs for an
    error. *)
Definition cycleError (e : JsError) : LogRecord :=
  let 'mkError m := e in
  {| logText := "Error processing recurring transactions:";
     logError := m;
     logRecurringTransactionId := None |}.


(** The key of [sort({ date: -1, createdAt: -1 })]. *)
Definition sortKey (s : Stored.t) : Z * Z :=
  (Transaction.date (Stored.fields s), Stored.createdAt s).

(* ================================================================== *)
(** ** Sample templates and worlds *)
(* ================================================================== *)

(** A civil date and time of day in UTC as a time value; months count
    from 0. *)
Definition utc (y m d h mi : Z) : Z :=
  MakeDate (MakeDay y m d) ((h * 60 + mi) * 60000).

(** A daily expense due on 5 January 2024. *)
Definition electricity : doc :=
  {| _id := 1%nat; userId := 7%nat; type := expense; amount := 100 # 1;
     category := "Utilities"; description := "";
     startDate := utc 2024 0 1 0 0; endDate := Missing;
     frequency := daily;
     dayOfMonth := None; dayOfWeek := None; month := None;
     isActive := true; lastProcessed := None;
     nextOccurrence := Some (utc 2024 0 5 0 0) |}.

(** A monthly expense due on the same day, in a category of the template
    schema that the ledger schema does not list, and ending at noon. *)
Definition rent : doc :=
  {| _id := 2%nat; userId := 7%nat; type := expense; amount := 15000 # 1;
     category := "Rent/Mortgage"; description := "flat";
     startDate := utc 2024 0 1 0 0; endDate := Val (utc 2024 0 5 12 0);
     frequency := monthly;
     dayOfMonth := Some 5; dayOfWeek := None; month := None;
     isActive := true; lastProcessed := None;
     nextOccurrence := Some (utc 2024 0 5 0 0) |}.

(** A daily income due on the same day and ending at noon of that day. *)
Definition stipend : doc :=
  {| _id := 3%nat; userId := 8%nat; type := income; amount := 5000 # 1;
     category := "Salary"; description := "";
     startDate := utc 2024 0 1 0 0; endDate := Val (utc 2024 0 5 12 0);
     frequency := daily;
     dayOfMonth := None; dayOfWeek := None; month := None;
     isActive := true; lastProcessed := None;
     nextOccurrence := Some (utc 2024 0 5 0 0) |}.

(** The scheduled cycle of 5 January 2024, 03:00, and the next day's. *)
Definition cycle1 : Z := utc 2024 0 5 3 0.
Definition cycle2 : Z := utc 2024 0 6 3 0.

Definition threeDue : World :=
  {| recurring := [electricity; rent; stipend];
     transactions := [];
     errorLog := [] |}.

Definition oneDue : World :=
  {| recurring := [electricity]; transactions := []; errorLog := [] |}.

Definition monthly31 (year : Z) : doc :=
  {| _id := 4%nat; userId := 7%nat; type := expense; amount := 100 # 1;
     category := "Utilities"; description := "";
     startDate := utc year 0 31 0 0; endDate := Missing;
     frequency := monthly;
     dayOfMonth := Some 31; dayOfWeek := None; month := None;
     isActive := true; lastProcessed := None;
     nextOccurrence := Some (utc year 0 31 0 0) |}.

(** An active template, due since 5 January, whose [endDate] was noon of
    that day. *)
Definition pastEnd : doc :=
  with_endDate (Val (utc 2024 0 5 12 0)) electricity.

(** A daily template whose [endDate] is exactly one day after its
    [nextOccurrence]. *)
Definition endsTomorrow : doc :=
  with_endDate (Val (utc 2024 0 6 0 0)) electricity.

(** A daily template, started on Monday 1 January 2024, whose next
    occurrence is Saturday 6 January. *)
Definition daily6 : doc :=
  with_nextOccurrence (Some (utc 2024 0 6 0 0)) electricity.

(** [{ frequency: 'weekly', dayOfWeek: 3 }] and [{ startDate: 1 Feb 2024 }]. *)
Definition toWeekly : Patch.t :=
  Patch.mk None None None None None Missing (Some weekly) None (Some 3) None
           None None None.

Definition toFebruary : Patch.t :=
  Patch.mk None None None None (Some (utc 2024 1 1 0 0)) Missing None None
           None None None None None.

Definition modified (f s e : bool) : SaveInfo :=
  {| isNew := false;
     modifiedFrequency := f;
     modifiedStartDate := s;
     modifiedEndDate := e |}.

(** A deactivated daily template: next occurrence 1 January 2024, end date
    10 January 2024. *)
Definition lapsed : doc :=
  {| _id := 5%nat; userId := 7%nat; type := expense; amount := 100 # 1;
     category := "Utilities"; description := "";
     startDate := utc 2023 11 1 0 0; endDate := Val (utc 2024 0 10 0 0);
     frequency := daily;
     dayOfMonth := None; dayOfWeek := None; month := None;
     isActive := false; lastProcessed := Some (utc 2023 11 31 3 0);
     nextOccurrence := Some (utc 2024 0 1 0 0) |}.

(** The listing query for page [k] of the same selection. *)
Definition atPage (k : positive) (q : ListQuery.t) : ListQuery.t :=
  ListQuery.mk k (ListQuery.limit q) (ListQuery.type q)
               (ListQuery.category q) (ListQuery.startDate q)
               (ListQuery.endDate q) (ListQuery.search q).

(** The transactions a listing request shows; nothing when it fails. *)
Definition listed (r : (list Stored.t * Pagination) + Reply)
  : list Stored.t :=
  match r with
  | inl (found, _) => found
  | inr _ => []
  end.

(** A weekly template on Mondays, whose reference date is Friday
    5 January 2024. *)
Definition mondays : doc :=
  with_frequency weekly (with_days None (Some 1) None electricity).

(** A monthly template on the 31st, whose reference date is 15 January
    2024. *)
Definition monthEnd : doc :=
  with_frequency monthly
    (with_days (Some 31) None None
       (with_nextOccurrence (Some (utc 2024 0 15 0 0)) electricity)).

(** A yearly template whose reference date is 29 February 2024, 09:30. *)
Definition leapDay : doc :=
  with_frequency yearly
    (with_days None None (Some 1)
       (with_nextOccurrence (Some (utc 2024 1 29 9 30)) electricity)).

(** A store in which the commit of the session is rejected. *)
Definition commitRejected : Faults :=
  {| insertFails := fun _ => false;
     bulkWriteFails := false;
     commitFails := true |}.

Definition emptyWorld : World :=
  {| recurring := []; transactions := []; errorLog := [] |}.

(** A request, sent on 5 January 2024, to create a monthly expense on the
    1st, starting on 1 February; it carries the required [nextOccurrence],
    set to the time of the request. *)
Definition gymBody : CreateBody.t :=
  CreateBody.mk
    (Patch.mk (Some expense) (Some (40 # 1)) (Some "Healthcare") None
              (Some (utc 2024 1 1 0 0)) Missing (Some monthly) (Some 1)
              None None None None (Some cycle1))
    None.

(** A request to create the monthly rent, in a category of the template
    schema that the ledger schema does not list. *)
Definition rentBody : CreateBody.t :=
  CreateBody.mk
    (Patch.mk (Some expense) (Some (15000 # 1)) (Some "Rent/Mortgage")
              (Some "flat") (Some (utc 2024 1 1 0 0)) Missing (Some monthly)
              (Some 1) None None None None (Some cycle1))
    None.

(** The template that the request [gymBody] creates. *)
Definition gym : doc :=
  {| _id := 9%nat; userId := 7%nat; type := expense; amount := 40 # 1;
     category := "Healthcare"; description := "";
     startDate := utc 2024 1 1 0 0; endDate := Missing;
     frequency := monthly;
     dayOfMonth := Some 1; dayOfWeek := None; month := None;
     isActive := true; lastProcessed := None;
     nextOccurrence := Some (utc 2024 1 1 0 0) |}.

Definition withLapsed : World :=
  {| recurring := [electricity; lapsed]; transactions := []; errorLog := [] |}.

(** Ledger transactions of user 7 in January 2024. *)
Definition groceries (k : ObjectId) (day : Z) : Stored.t :=
  Stored.mk k (utc 2024 0 day 12 0)
    {| Transaction.userId := 7%nat;
       Transaction.type := expense;
       Transaction.amount := 250 # 1;
       Transaction.category := "Food & Dining";
       Transaction.description := "groceries";
       Transaction.date := utc 2024 0 day 0 0;
       Transaction.receiptId := None;
       Transaction.receiptUrl := None;
       Transaction.isFromReceipt := false;
       Transaction.isFromRecurring := false;
       Transaction.recurringTransactionId := None;
       Transaction.lastAccessed := utc 2024 0 day 12 0 |}.

Definition januaryLedger : list Stored.t :=
  [groceries 1%nat 2; groceries 2%nat 9; groceries 3%nat 5].

(** Page 1 of the listing, two transactions a page, no filter. *)
Definition firstTwo : ListQuery.t :=
  ListQuery.mk 1 2 None None None None None.

Definition noMatch : string -> string -> bool := fun _ _ => false.

(** Three chat sessions: last active in November, in November and pinned,
    and on 4 January. *)
Definition chatSessions : list Chat.t :=
  [ Chat.mk [] (utc 2023 10 1 0 0) None;
    Chat.mk [] (utc 2023 10 1 0 0) (Some true);
    Chat.mk [] (utc 2024 0 4 0 0) None ].

(* ================================================================== *)
(** ** The calendar *)
(* ================================================================== *)

(** The twelve cases of a month index. *)
Ltac month_cases m H :=
  assert (H : m = 0 \/ m = 1 \/ m = 2 \/ m = 3 \/ m = 4 \/ m = 5 \/ m = 6
              \/ m = 7 \/ m = 8 \/ m = 9 \/ m = 10 \/ m = 11) by lia.

(** [YearFromDay] meets its specification: the year found is the one whose
    first day is the last first-of-year not after [d]. *)
Lemma YearFromDay_spec (d : Z) :
  DayFromYear (YearFromDay d) <= d < DayFromYear (YearFromDay d + 1).
Proof.
  unfold YearFromDay.
  set (y := 1970 + d * 400 / 146097).
  assert (Hlo : DayFromYear (y - 1) <= d).
  { unfold DayFromYear, y. Z.div_mod_to_equations. lia. }
  assert (Hhi : d < DayFromYear (y + 2)).
  { unfold DayFromYear, y. Z.div_mod_to_equations. lia. }
  destruct (Z.leb_spec (DayFromYear (y + 1)) d).
  - split; [assumption|]. now replace (y + 1 + 1) with (y + 2) by lia.
  - destruct (Z.leb_spec (DayFromYear y) d).
    + split; assumption.
    + split; [assumption|]. now replace (y - 1 + 1) with y by lia.
Qed.

Lemma DayFromYear_succ (y : Z) :
  DayFromYear (y + 1) = DayFromYear y + DaysInYear y.
Proof.
  unfold DaysInYear, InLeapYear, DayFromYear.
  destruct (Z.eqb_spec (y mod 4) 0), (Z.eqb_spec (y mod 100) 0),
    (Z.eqb_spec (y mod 400) 0); cbn [andb orb negb];
    Z.div_mod_to_equations; lia.
Qed.

Lemma DayWithinYear_range (t : Z) :
  0 <= DayWithinYear t < DaysInYear (YearFromTime t).
Proof.
  unfold DayWithinYear, YearFromTime.
  pose proof (YearFromDay_spec (Day t)) as H.
  rewrite DayFromYear_succ in H. lia.
Qed.

Lemma month_scan_spec (leap : bool) (dwy : Z) :
  0 <= dwy < (if leap then 366 else 365) ->
  0 <= month_scan leap dwy 0 11 <= 11
  /\ MonthStart leap (month_scan leap dwy 0 11) <= dwy
     < MonthStart leap (month_scan leap dwy 0 11 + 1).
Proof.
  intros H. cbn [month_scan].
  repeat match goal with
  | |- context [if ?a <? ?b then _ else _] =>
      destruct (Z.ltb_spec a b)
  end; destruct leap; cbn in *; lia.
Qed.

Lemma MonthFromTime_range (t : Z) : 0 <= MonthFromTime t <= 11.
Proof.
  unfold MonthFromTime. apply month_scan_spec.
  pose proof (DayWithinYear_range t) as H. unfold DaysInYear in H.
  now destruct (InLeapYear (YearFromTime t)).
Qed.

(** The day of the month read off a time value is a day of that month. *)
Lemma DateFromTime_range (t : Z) :
  1 <= DateFromTime t
    <= DaysInMonth (InLeapYear (YearFromTime t)) (MonthFromTime t).
Proof.
  unfold DateFromTime, DaysInMonth, MonthFromTime.
  pose proof (DayWithinYear_range t) as Hw. unfold DaysInYear in Hw.
  assert (Hr : 0 <= DayWithinYear t
               < (if InLeapYear (YearFromTime t) then 366 else 365))
    by (destruct (InLeapYear (YearFromTime t)); lia).
  destruct (month_scan_spec _ _ Hr) as [_ Hs]. lia.
Qed.

(** The civil date read off a time value names its day. *)
Lemma MakeDay_of_civil (t : Z) :
  MakeDay (YearFromTime t) (MonthFromTime t) (DateFromTime t) = Day t.
Proof.
  pose proof (MonthFromTime_range t) as Hm.
  unfold MakeDay, DateFromTime, DayWithinYear.
  rewrite (Z.div_small (MonthFromTime t) 12) by lia.
  rewrite (Z.mod_small (MonthFromTime t) 12) by lia.
  rewrite Z.add_0_r. lia.
Qed.

Lemma DayFromYear_mono (y y' : Z) : y <= y' -> DayFromYear y <= DayFromYear y'.
Proof. unfold DayFromYear. intros H. Z.div_mod_to_equations. lia. Qed.

Lemma YearFromDay_unique (y d : Z) :
  DayFromYear y <= d < DayFromYear (y + 1) -> YearFromDay d = y.
Proof.
  intros H. pose proof (YearFromDay_spec d) as S.
  destruct (Z.lt_trichotomy (YearFromDay d) y) as [L|[E|G]]; [|exact E|].
  - pose proof (DayFromYear_mono (YearFromDay d + 1) y ltac:(lia)). lia.
  - pose proof (DayFromYear_mono (y + 1) (YearFromDay d) ltac:(lia)). lia.
Qed.

Lemma month_scan_unique (leap : bool) (m dwy : Z) :
  0 <= m <= 11 ->
  MonthStart leap m <= dwy < MonthStart leap (m + 1) ->
  month_scan leap dwy 0 11 = m.
Proof.
  intros Hm H.
  month_cases m Hc.
  cbn [month_scan].
  repeat match goal with
  | |- context [if ?a <? ?b then _ else _] =>
      destruct (Z.ltb_spec a b)
  end; destruct leap; cbn in *;
  repeat (destruct Hc as [->|Hc]; [cbn in *; lia|]); subst; cbn in *; lia.
Qed.

Lemma MonthStart_bounds (leap : bool) (m : Z) :
  0 <= m <= 11 ->
  0 <= MonthStart leap m <= 335
  /\ MonthStart leap m + 28 <= MonthStart leap (m + 1)
     <= MonthStart leap m + 31.
Proof.
  intros Hm.
  month_cases m Hc.
  destruct leap;
    repeat (destruct Hc as [->|Hc]; [cbn; lia|]); subst; cbn; lia.
Qed.

Lemma MakeDay_normal (y m d : Z) :
  0 <= m <= 11 ->
  MakeDay y m d = DayFromYear y + MonthStart (InLeapYear y) m + d - 1.
Proof.
  intros Hm. unfold MakeDay.
  rewrite Z.div_small, Z.mod_small by lia. now rewrite Z.add_0_r.
Qed.

(** A day built from a civil date reads back as that date. *)
Lemma civil_of_MakeDay (y m d : Z) :
  0 <= m <= 11 -> 1 <= d <= DaysInMonth (InLeapYear y) m ->
  forall t, Day t = MakeDay y m d ->
  YearFromTime t = y /\ MonthFromTime t = m /\ DateFromTime t = d.
Proof.
  intros Hm Hd t Ht. unfold DaysInMonth in Hd.
  pose proof (MakeDay_normal y m d Hm) as HM.
  assert (Hs : 0 <= MonthStart (InLeapYear y) m
               /\ MonthStart (InLeapYear y) (m + 1) <= DaysInYear y).
  { unfold DaysInYear.
    month_cases m Hc.
    destruct (InLeapYear y);
    repeat (destruct Hc as [->|Hc]; [cbn; lia|]); subst; cbn; lia. }
  assert (Hy : YearFromTime t = y).
  { unfold YearFromTime. apply YearFromDay_unique.
    rewrite DayFromYear_succ, Ht, HM. lia. }
  assert (Hw : DayWithinYear t = MonthStart (InLeapYear y) m + d - 1).
  { unfold DayWithinYear. rewrite Hy, Ht, HM. lia. }
  assert (Hmo : MonthFromTime t = m).
  { unfold MonthFromTime. rewrite Hy, Hw. apply month_scan_unique; lia. }
  split; [exact Hy|]. split; [exact Hmo|].
  unfold DateFromTime. rewrite Hy, Hmo, Hw. lia.
Qed.

Lemma Day_MakeDate (D time : Z) :
  0 <= time < msPerDay ->
  Day (MakeDate D time) = D /\ TimeWithinDay (MakeDate D time) = time.
Proof.
  intros H. unfold Day, TimeWithinDay, MakeDate, msPerDay in *.
  Z.div_mod_to_equations. lia.
Qed.

(** Carrying a month index 0..12 into the year. *)
Lemma MakeDay_carry (y m d : Z) :
  0 <= m <= 11 ->
  MakeDay y (m + 1) d = MakeDay (y + (m + 1) / 12) ((m + 1) mod 12) d.
Proof.
  intros Hm. unfold MakeDay.
  assert (H1 : 0 <= (m + 1) mod 12 < 12) by (apply Z.mod_pos_bound; lia).
  rewrite (Z.div_small ((m + 1) mod 12)) by lia.
  rewrite (Z.mod_small ((m + 1) mod 12)) by lia.
  now rewrite Z.add_0_r.
Qed.

(** Day 0 of the following month is the last day of the month. *)
Lemma MakeDay_day_zero (y m : Z) :
  0 <= m <= 11 ->
  MakeDay y (m + 1) 0 = MakeDay y m (DaysInMonth (InLeapYear y) m).
Proof.
  intros Hm. rewrite (MakeDay_normal y m) by lia. unfold DaysInMonth.
  destruct (Z.eq_dec m 11) as [->|Hne].
  - unfold MakeDay.
    change ((11 + 1) / 12) with 1. change ((11 + 1) mod 12) with 0.
    rewrite DayFromYear_succ. unfold DaysInYear.
    destruct (InLeapYear y), (InLeapYear (y + 1)); cbn; lia.
  - rewrite MakeDay_normal by lia. lia.
Qed.

Lemma DayFromYear_bounds (y : Z) :
  -200001 <= y <= 200001 -> -80000000 <= DayFromYear y <= 80000000.
Proof. unfold DayFromYear. intros H. Z.div_mod_to_equations. lia. Qed.

(** A local date in a year of moderate size is a valid time value. *)
Lemma TimeClip_local (y m d tw : Z) :
  Z.abs LocalTZA <= msPerDay -> -200001 <= y <= 200001 -> 0 <= m <= 11 ->
  0 <= d <= 31 -> 0 <= tw < msPerDay ->
  TimeClip (UTC (MakeDate (MakeDay y m d) tw))
  = DateOf (MakeDate (MakeDay y m d) tw - LocalTZA).
Proof.
  intros Htz Hy Hm Hd Htw. unfold TimeClip, UTC.
  rewrite MakeDay_normal by lia.
  pose proof (DayFromYear_bounds y Hy) as Hb.
  pose proof (MonthStart_bounds (InLeapYear y) m Hm) as [Hs _].
  replace (_ <=? _) with true; [reflexivity|].
  symmetry. apply Z.leb_le. unfold MakeDate, maxTime, msPerDay in *. lia.
Qed.

Lemma TimeWithinDay_range (t : Z) : 0 <= TimeWithinDay t < msPerDay.
Proof. unfold TimeWithinDay, msPerDay. apply Z.mod_pos_bound. lia. Qed.

Lemma civil_local (y m d tw : Z) :
  0 <= m <= 11 -> 1 <= d <= DaysInMonth (InLeapYear y) m ->
  0 <= tw < msPerDay ->
  let t := LocalTime (MakeDate (MakeDay y m d) tw - LocalTZA) in
  YearFromTime t = y /\ MonthFromTime t = m /\ DateFromTime t = d
  /\ TimeWithinDay t = tw.
Proof.
  intros Hm Hd Htw t.
  assert (Et : t = MakeDate (MakeDay y m d) tw) by (unfold t, LocalTime; lia).
  destruct (Day_MakeDate (MakeDay y m d) tw Htw) as [HD HT].
  rewrite Et.
  destruct (civil_of_MakeDay y m d Hm Hd _ HD) as (A & B & C).
  repeat split; assumption.
Qed.

Lemma Day_split (t : Z) : t = Day t * msPerDay + TimeWithinDay t.
Proof.
  unfold Day, TimeWithinDay. pose proof (Z.div_mod t msPerDay).
  assert (msPerDay <> 0) by (unfold msPerDay; lia). lia.
Qed.

Lemma MakeDay_plus (y m d k : Z) : MakeDay y m (d + k) = MakeDay y m d + k.
Proof. unfold MakeDay. lia. Qed.

(** [setDate(getDate() + k)] moves a date by [k] whole days. *)
Lemma setDate_plus (u k : Z) :
  setDate (DateOf u) (jsAdd (getDate (DateOf u)) (Some k))
  = TimeClip (u + k * msPerDay).
Proof.
  change (setDate (DateOf u) (jsAdd (getDate (DateOf u)) (Some k)))
    with (TimeClip (UTC (MakeDate
            (MakeDay (YearFromTime (LocalTime u)) (MonthFromTime (LocalTime u))
                     (DateFromTime (LocalTime u) + k))
            (TimeWithinDay (LocalTime u))))).
  rewrite MakeDay_plus, MakeDay_of_civil. f_equal.
  pose proof (Day_split (LocalTime u)) as Hs.
  unfold UTC, MakeDate, LocalTime in *. lia.
Qed.

(* ================================================================== *)
(** ** The calculator *)
(* ================================================================== *)

(** The clock reading does not enter the result: both branches of the
    "in the future" test copy [this.nextOccurrence]. *)
Lemma baseDate_clock (this : doc) (now now' : Z) :
  baseDate this now = baseDate this now'.
Proof.
  unfold baseDate.
  destruct (nextOccurrence this) as [n|]; [|reflexivity].
  destruct (now <? n), (now' <? n); reflexivity.
Qed.

Lemma calculateNextOccurrence_clock (this : doc) (now now' : Z) :
  calculateNextOccurrence this now = calculateNextOccurrence this now'.
Proof.
  unfold calculateNextOccurrence, candidateDate.
  now rewrite (baseDate_clock this now now').
Qed.

(** Daily: the computed date is the reference plus one day. *)
Lemma candidateDate_daily (this : doc) (now n : Z) :
  frequency this = daily ->
  nextOccurrence this = Some n ->
  Z.abs n <= maxTime ->
  candidateDate this now = TimeClip (n + msPerDay).
Proof.
  intros Hf Hn Hr. unfold candidateDate, stepDate, baseDate.
  rewrite Hf, Hn. unfold newDate, TimeClip.
  replace (Z.abs n <=? maxTime) with true by (symmetry; now apply Z.leb_le).
  destruct (now <? n); rewrite setDate_plus; unfold TimeClip;
    now rewrite Z.mul_1_l.
Qed.

(** Weekly: the computed date is the reference plus [k] days, where [k] in
    1..7 leads to the next day whose weekday is [dayOfWeek]; on the target
    weekday itself [k] is 7. *)
Lemma candidateDate_weekly (this : doc) (now n dw : Z) :
  frequency this = weekly ->
  dayOfWeek this = Some dw ->
  0 <= dw <= 6 ->
  nextOccurrence this = Some n ->
  Z.abs n <= maxTime ->
  let r := (dw - WeekDay (LocalTime n) + 7) mod 7 in
  let k := if r =? 0 then 7 else r in
  candidateDate this now = TimeClip (n + k * msPerDay)
  /\ 1 <= k <= 7
  /\ WeekDay (LocalTime n + k * msPerDay) = dw.
Proof.
  intros Hf Hd Hdw Hn Hr r k.
  assert (Hwd : 0 <= WeekDay (LocalTime n) < 7)
    by (unfold WeekDay; apply Z.mod_pos_bound; lia).
  assert (Hrr : 0 <= r < 7) by (unfold r; apply Z.mod_pos_bound; lia).
  assert (Hk : 1 <= k <= 7) by (unfold k; destruct (Z.eqb_spec r 0); lia).
  split; [|split; [exact Hk|]].
  - unfold candidateDate, stepDate, baseDate. rewrite Hf, Hd, Hn.
    assert (Enew : newDate n = DateOf n).
    { unfold newDate, TimeClip.
      now replace (Z.abs n <=? maxTime) with true
        by (symmetry; now apply Z.leb_le). }
    replace (if now <? n then newDate n else newDate n) with (DateOf n)
      by (destruct (now <? n); now rewrite Enew).
    cbv zeta. change (getDay (DateOf n)) with (Some (WeekDay (LocalTime n))).
    cbn [jsSub jsAdd jsRem jsStrictEqZ Z.eqb].
    rewrite Z.rem_mod_nonneg by lia. fold r.
    replace (if r =? 0 then Some 7 else Some r) with (Some k)
      by (unfold k; now destruct (r =? 0)).
    apply setDate_plus.
  - unfold WeekDay in *. unfold Day in *.
    replace ((LocalTime n + k * msPerDay) / msPerDay)
      with (LocalTime n / msPerDay + k)
      by (unfold msPerDay; rewrite Z.div_add by lia; reflexivity).
    unfold k, r.
    destruct (Z.eqb_spec
                ((dw - (LocalTime n / msPerDay + 4) mod 7 + 7) mod 7) 0);
      Z.div_mod_to_equations; lia.
Qed.

(** Monthly, from a reference on the 1st..28th: the computed date is in the
    next calendar month, on day [min(dayOfMonth, last day of that month)],
    at the reference's time of day. *)
Lemma monthly_step_short_day (this : doc) (now n dom : Z) :
  let t := LocalTime n in
  let y' := YearFromTime t + (MonthFromTime t + 1) / 12 in
  let m' := (MonthFromTime t + 1) mod 12 in
  frequency this = monthly ->
  nextOccurrence this = Some n ->
  dayOfMonth this = Some dom ->
  1 <= dom <= 31 ->
  DateFromTime t <= 28 ->
  100 <= YearFromTime t <= 200000 ->
  Z.abs LocalTZA <= msPerDay ->
  exists r,
    candidateDate this now = DateOf r
    /\ YearFromTime (LocalTime r) = y'
    /\ MonthFromTime (LocalTime r) = m'
    /\ DateFromTime (LocalTime r)
       = Z.min dom (DaysInMonth (InLeapYear y') m')
    /\ TimeWithinDay (LocalTime r) = TimeWithinDay t.
Proof.
  intros t y' m' Hf Hn Hdom Hd Hshort Hy Htz.
  pose proof (MonthFromTime_range t) as Hm.
  pose proof (TimeWithinDay_range t) as Htw.
  assert (Hm' : 0 <= m' <= 11).
  { unfold m'. pose proof (Z.mod_pos_bound (MonthFromTime t + 1) 12). lia. }
  assert (Hy' : 100 <= y' <= 200001).
  { unfold y'. assert (0 <= (MonthFromTime t + 1) / 12 <= 1); [|lia].
    split; [apply Z.div_pos; lia|]. apply Z.div_le_upper_bound; lia. }
  pose proof (DateFromTime_range t) as Hd0.
  (* the reference is a valid date *)
  assert (Hn_valid : Z.abs n <= maxTime).
  { pose proof (YearFromDay_spec (Day t)) as Hs. fold (YearFromTime t) in Hs.
    pose proof (DayFromYear_bounds (YearFromTime t) ltac:(lia)).
    pose proof (DayFromYear_bounds (YearFromTime t + 1) ltac:(lia)).
    assert (t = Day t * msPerDay + TimeWithinDay t).
    { unfold Day, TimeWithinDay, msPerDay. Z.div_mod_to_equations. lia. }
    unfold t, LocalTime, maxTime, msPerDay in *. lia. }
  pose proof (MonthStart_bounds (InLeapYear y') m' Hm') as [_ Hlen].
  fold (DaysInMonth (InLeapYear y') m') in Hlen.
  assert (HL : 28 <= DaysInMonth (InLeapYear y') m' <= 31)
    by (unfold DaysInMonth; lia).
  set (L := DaysInMonth (InLeapYear y') m') in *.
  (* setMonth *)
  assert (E1 : setMonth (DateOf n) (Some (MonthFromTime t + 1))
               = DateOf (MakeDate (MakeDay y' m' (DateFromTime t))
                                  (TimeWithinDay t) - LocalTZA)).
  { unfold setMonth. fold t. rewrite MakeDay_carry by lia. fold y' m'.
    apply TimeClip_local; lia. }
  destruct (civil_local y' m' (DateFromTime t) (TimeWithinDay t)
                        Hm' ltac:(lia) Htw) as (A1 & B1 & C1 & D1).
  (* last day of that month *)
  assert (E2 : getDate (newDateYMD (Some y') (Some (m' + 1)) (Some 0))
               = Some L).
  { unfold newDateYMD.
    replace ((0 <=? y') && (y' <=? 99)) with false
      by (symmetry; apply andb_false_iff; right; apply Z.leb_gt; lia).
    rewrite MakeDay_day_zero by lia. fold L.
    rewrite TimeClip_local by (unfold msPerDay in *; lia).
    unfold getDate.
    destruct (civil_local y' m' L 0 Hm' ltac:(lia) ltac:(unfold msPerDay; lia))
      as (_ & _ & C2 & _).
    now rewrite C2. }
  set (target := Z.min dom L).
  assert (Ht : 1 <= target <= L) by (unfold target; lia).
  exists (MakeDate (MakeDay y' m' target) (TimeWithinDay t) - LocalTZA).
  split.
  - unfold candidateDate, stepDate, baseDate. rewrite Hf, Hn, Hdom.
    assert (Enew : newDate n = DateOf n).
    { unfold newDate, TimeClip. now replace (Z.abs n <=? maxTime) with true
        by (symmetry; now apply Z.leb_le). }
    replace (if now <? n then newDate n else newDate n) with (DateOf n)
      by (destruct (now <? n); now rewrite Enew).
    cbv zeta.
    change (getMonth (DateOf n)) with (Some (MonthFromTime t)).
    change (jsAdd (Some (MonthFromTime t)) (Some 1))
      with (Some (MonthFromTime t + 1)).
    rewrite !E1. unfold getFullYear, getMonth. rewrite A1, B1. unfold jsAdd.
    rewrite E2. unfold Math_min. fold target.
    unfold setDate. rewrite A1, B1, D1.
    apply TimeClip_local; lia.
  - destruct (civil_local y' m' target (TimeWithinDay t) Hm' ltac:(lia) Htw)
      as (A3 & B3 & C3 & D3).
    repeat split; assumption.
Qed.

(* ================================================================== *)
(** ** The lifecycle operations *)
(* ================================================================== *)

(** What the guard of [toggleActiveStatus] tests when it reactivates a
    template with a stale [nextOccurrence] and an [endDate]: whether one
    step from the stale date passes [endDate].  The clock is not part of
    the test. *)
Lemma toggle_reactivation_guard (now n e : Z) (id user : ObjectId)
    (c : list doc) (rt : doc) :
  findOne id user c = Some rt ->
  isActive rt = false ->
  nextOccurrence rt = Some n ->
  n < now ->
  endDate rt = Val e ->
  fst (toggleActiveStatus now id user c)
    = PassedToNext (mkError "Cannot activate - no valid future occurrences")
                   (Some 400)
  <-> Date_gt (candidateDate rt now) (DateOf e) = true.
Proof.
  intros Hf Ha Hn Hlt He.
  set (rt' := with_isActive true rt).
  assert (Ha' : isActive rt' = true) by reflexivity.
  assert (Hn' : nextOccurrence rt' = Some n) by exact Hn.
  assert (He' : endDate rt' = Val e) by exact He.
  assert (Hc' : candidateDate rt' now = candidateDate rt now) by reflexivity.
  unfold toggleActiveStatus. rewrite Hf, Ha. cbn [negb]. fold rt'.
  rewrite Ha', Hn'.
  replace (n <? now) with true by (symmetry; now apply Z.ltb_lt).
  cbn [andb]. unfold newRecurringTransaction, calculateNextOccurrence.
  rewrite Ha', He', Hc'. cbn [negb].
  destruct (Date_gt (candidateDate rt now) (DateOf e)).
  - cbn. tauto.
  - split; [|discriminate].
    destruct (candidateDate rt now) as [|t]; [cbn; discriminate|].
    cbv beta iota. unfold saveDocument.
    cbn [nextOccurrence with_nextOccurrence]. cbn [fst]. discriminate.
Qed.

(* ================================================================== *)
(** ** The batch processor *)
(* ================================================================== *)

(** The selection statement throws, whatever the collection holds: the
    method [session] is looked up on a promise. *)
Lemma selectionStatement_throws (collection : list doc) (now : Z) :
  selectionStatement collection now = Throw sessionTypeError.
Proof. reflexivity. Qed.

(** So every call ends in the outer [catch] before the loop is entered:
    the error is logged and thrown again, and the two collections are as
    they were. *)
Lemma cycle_aborts (F : Faults) (now : Z) (w : World) :
  processRecurringTransactions F now w
  = (Throw sessionTypeError,
     {| recurring := recurring w;
        transactions := transactions w;
        errorLog := (errorLog w ++ [cycleError sessionTypeError])%list |}).
Proof.
  unfold processRecurringTransactions.
  now rewrite selectionStatement_throws.
Qed.


(* ================================================================== *)
(** ** Statements about the engine *)
(* ================================================================== *)


(** C3.  Every invocation throws: with a healthy store as with a failing
    one, with or without due templates, the selection statement throws a
    [TypeError], which the outer [catch] logs and throws again.  No result
    object is ever returned. *)
Theorem processRecurringTransactions_always_throws (F : Faults) (now : Z)
    (w : World) :
  let run := processRecurringTransactions F now w in
  fst run = Throw sessionTypeError
  /\ (forall o, fst run <> Normal o)
  /\ recurring (snd run) = recurring w
  /\ transactions (snd run) = transactions w
  /\ errorLog (snd run) = (errorLog w ++ [cycleError sessionTypeError])%list.
Proof.
  cbv zeta. rewrite cycle_aborts. cbn [fst snd recurring transactions errorLog].
  repeat split. intros o H. discriminate.
Qed.

(** C5 (as amended).  The selection returns exactly the templates with
    [isActive = true], [nextOccurrence <= now], and an [endDate] that is
    absent or not before [now]: a template past its [endDate] (and one
    whose [endDate] is [null]) is filtered out by the selection itself. *)
Theorem getTransactionsToProcess_exact (collection : list doc) (now : Z)
    (t : doc) :
  In t (getTransactionsToProcess collection now) <->
  In t collection
  /\ isActive t = true
  /\ (exists n, nextOccurrence t = Some n /\ n <= now)
  /\ (endDate t = Missing \/ exists e, endDate t = Val e /\ now <= e).
Proof.
  unfold getTransactionsToProcess. rewrite filter_In. unfold dueFilter.
  rewrite !andb_true_iff. split.
  - intros (Hin & (Ha & Hn) & He). repeat split; try assumption.
    + destruct (nextOccurrence t) as [n|]; [|discriminate].
      exists n. split; [reflexivity|]. now apply Z.leb_le.
    + destruct (endDate t) as [| |e]; [now left|discriminate|].
      right. exists e. split; [reflexivity|]. now apply Z.leb_le.
  - intros (Hin & Ha & (n & Hn & Hle) & He). repeat split; try assumption.
    + rewrite Hn. now apply Z.leb_le.
    + destruct He as [->|(e & -> & Hle')]; [reflexivity|].
      now apply Z.leb_le.
Qed.

(** C6 (as amended).  For an active template with [endDate] set,
    [calculateNextOccurrence] returns [null] exactly when the computed date
    is strictly after [endDate]; a computed date equal to [endDate] is
    returned as the next occurrence. *)
Theorem calculateNextOccurrence_end_date (this : doc) (now e : Z) :
  isActive this = true ->
  endDate this = Val e ->
  (calculateNextOccurrence this now = None <->
   exists c, candidateDate this now = DateOf c /\ e < c)
  /\ (candidateDate this now = DateOf e ->
      calculateNextOccurrence this now = Some (DateOf e)).
Proof.
  intros Ha He. unfold calculateNextOccurrence. rewrite Ha, He. cbn.
  split.
  - destruct (candidateDate this now) as [|c]; cbn.
    + split; [discriminate|]. intros (c & Hc & _). discriminate.
    + destruct (Z.ltb_spec e c) as [Hlt|Hge].
      * split; [|reflexivity]. intros _. now exists c.
      * split; [discriminate|]. intros (c' & Hc & Hlt).
        injection Hc as <-. lia.
  - intros ->. cbn. now rewrite Z.ltb_irrefl.
Qed.

(* ================================================================== *)
(** ** Further properties: the calculator and the save hook *)
(* ================================================================== *)

Lemma TimeClip_valid (t : Z) : Z.abs t <= maxTime -> TimeClip t = DateOf t.
Proof.
  intros H. unfold TimeClip.
  now replace (Z.abs t <=? maxTime) with true by (symmetry; now apply Z.leb_le).
Qed.

(** Once the computed date is known to be valid, the result of the method
    is fixed by the end-date test. *)
Lemma calculateNextOccurrence_of_candidate (this : doc) (now r : Z) :
  isActive this = true ->
  candidateDate this now = DateOf r ->
  calculateNextOccurrence this now
  = match endDate this with
    | Val e => if e <? r then None else Some (DateOf r)
    | _ => Some (DateOf r)
    end.
Proof.
  intros Ha Hc. unfold calculateNextOccurrence. rewrite Ha, Hc. reflexivity.
Qed.

Lemma WeekDay_plus (t j : Z) :
  WeekDay (t + j * msPerDay) = (WeekDay t + j) mod 7.
Proof.
  unfold WeekDay, Day.
  rewrite Z.div_add by (unfold msPerDay; lia).
  Z.div_mod_to_equations. lia.
Qed.

(** X1.  Daily cadence, on a host whose offset from UTC is constant: for
    an active template whose [nextOccurrence] is [n], the method returns
    [n] plus 24 hours, or [null] when [endDate] is set and earlier than
    that.  Neither [startDate] nor the clock enters. *)
Theorem daily_next_occurrence (this : doc) (now n : Z) :
  isActive this = true ->
  frequency this = daily ->
  nextOccurrence this = Some n ->
  Z.abs n <= maxTime - msPerDay ->
  calculateNextOccurrence this now
  = match endDate this with
    | Val e => if e <? n + msPerDay then None
               else Some (DateOf (n + msPerDay))
    | _ => Some (DateOf (n + msPerDay))
    end.
Proof.
  intros Ha Hf Hn Hr.
  apply calculateNextOccurrence_of_candidate; [exact Ha|].
  rewrite (candidateDate_daily this now n Hf Hn)
    by (unfold maxTime, msPerDay in *; lia).
  apply TimeClip_valid. unfold maxTime, msPerDay in *. lia.
Qed.

(** X2.  Weekly cadence, on a host whose offset from UTC is constant: the
    method moves the reference [n] forward by [k] times 24 hours, where [k]
    in 1..7 is the least positive number of days that leads to weekday
    [dayOfWeek]; from the target weekday itself that is a full week. *)
Theorem weekly_next_occurrence (this : doc) (now n dw : Z) :
  isActive this = true ->
  frequency this = weekly ->
  dayOfWeek this = Some dw ->
  0 <= dw <= 6 ->
  nextOccurrence this = Some n ->
  Z.abs n <= maxTime - 7 * msPerDay ->
  exists k,
    1 <= k <= 7
    /\ WeekDay (LocalTime (n + k * msPerDay)) = dw
    /\ (forall j, 1 <= j < k -> WeekDay (LocalTime (n + j * msPerDay)) <> dw)
    /\ calculateNextOccurrence this now
       = match endDate this with
         | Val e => if e <? n + k * msPerDay then None
                    else Some (DateOf (n + k * msPerDay))
         | _ => Some (DateOf (n + k * msPerDay))
         end.
Proof.
  intros Ha Hf Hd Hdw Hn Hr.
  assert (Hv : Z.abs n <= maxTime) by (unfold maxTime, msPerDay in *; lia).
  destruct (candidateDate_weekly this now n dw Hf Hd Hdw Hn Hv)
    as (Hc & Hk & Hw).
  set (r := (dw - WeekDay (LocalTime n) + 7) mod 7) in *.
  set (k := if r =? 0 then 7 else r) in *.
  assert (Hshift : forall j, LocalTime (n + j * msPerDay)
                             = LocalTime n + j * msPerDay)
    by (intros j; unfold LocalTime; lia).
  exists k. split; [exact Hk|]. split; [now rewrite Hshift|]. split.
  - intros j Hj. rewrite Hshift, WeekDay_plus.
    assert (Hwd : 0 <= WeekDay (LocalTime n) < 7)
      by (unfold WeekDay; apply Z.mod_pos_bound; lia).
    revert Hj. unfold k, r.
    destruct (Z.eqb_spec ((dw - WeekDay (LocalTime n) + 7) mod 7) 0);
      intros Hj; Z.div_mod_to_equations; lia.
  - apply calculateNextOccurrence_of_candidate; [exact Ha|].
    rewrite Hc. apply TimeClip_valid. unfold maxTime, msPerDay in *. lia.
Qed.

(** X3.  Monthly cadence, from a reference on the 1st..28th: the method
    returns the day [min(dayOfMonth, last day)] of the next calendar month
    (December leads to January of the next year), at the reference's time
    of day, subject to the end-date test. *)
Theorem monthly_next_occurrence (this : doc) (now n dom : Z) :
  let t := LocalTime n in
  let y' := YearFromTime t + (MonthFromTime t + 1) / 12 in
  let m' := (MonthFromTime t + 1) mod 12 in
  isActive this = true ->
  frequency this = monthly ->
  nextOccurrence this = Some n ->
  dayOfMonth this = Some dom ->
  1 <= dom <= 31 ->
  DateFromTime t <= 28 ->
  100 <= YearFromTime t <= 200000 ->
  Z.abs LocalTZA <= msPerDay ->
  exists r,
    YearFromTime (LocalTime r) = y'
    /\ MonthFromTime (LocalTime r) = m'
    /\ DateFromTime (LocalTime r) = Z.min dom (DaysInMonth (InLeapYear y') m')
    /\ TimeWithinDay (LocalTime r) = TimeWithinDay t
    /\ calculateNextOccurrence this now
       = match endDate this with
         | Val e => if e <? r then None else Some (DateOf r)
         | _ => Some (DateOf r)
         end.
Proof.
  intros t y' m' Ha Hf Hn Hdom Hd Hshort Hy Htz.
  destruct (monthly_step_short_day this now n dom Hf Hn Hdom Hd Hshort Hy Htz)
    as (r & Hc & A & B & C & D).
  exists r. repeat (split; [assumption|]).
  now apply calculateNextOccurrence_of_candidate.
Qed.

(** The reference date of a template that has [nextOccurrence]. *)
Lemma baseDate_of_nextOccurrence (this : doc) (now n : Z) :
  nextOccurrence this = Some n -> Z.abs n <= maxTime ->
  baseDate this now = DateOf n.
Proof.
  intros Hn Hv. unfold baseDate. rewrite Hn. unfold newDate.
  rewrite TimeClip_valid by exact Hv. now destruct (now <? n).
Qed.

Lemma local_valid (n : Z) :
  100 <= YearFromTime (LocalTime n) <= 200000 ->
  Z.abs LocalTZA <= msPerDay -> Z.abs n <= maxTime.
Proof.
  intros Hy Htz. set (t := LocalTime n) in *.
  pose proof (YearFromDay_spec (Day t)) as Hs. fold (YearFromTime t) in Hs.
  pose proof (DayFromYear_bounds (YearFromTime t) ltac:(lia)).
  pose proof (DayFromYear_bounds (YearFromTime t + 1) ltac:(lia)).
  pose proof (Day_split t) as Ht. pose proof (TimeWithinDay_range t).
  unfold t, LocalTime, maxTime, msPerDay in *. lia.
Qed.

(** X4.  Yearly cadence: the method returns the same month, day and time
    of day in the following year, whatever the template's [month] and
    [dayOfMonth] say; from 29 February it returns 1 March. *)
Theorem yearly_next_occurrence (this : doc) (now n : Z) :
  let t := LocalTime n in
  isActive this = true ->
  frequency this = yearly ->
  nextOccurrence this = Some n ->
  100 <= YearFromTime t <= 200000 ->
  Z.abs LocalTZA <= msPerDay ->
  exists r,
    YearFromTime (LocalTime r) = YearFromTime t + 1
    /\ (if (MonthFromTime t =? 1) && (DateFromTime t =? 29)
        then MonthFromTime (LocalTime r) = 2 /\ DateFromTime (LocalTime r) = 1
        else MonthFromTime (LocalTime r) = MonthFromTime t
             /\ DateFromTime (LocalTime r) = DateFromTime t)
    /\ TimeWithinDay (LocalTime r) = TimeWithinDay t
    /\ calculateNextOccurrence this now
       = match endDate this with
         | Val e => if e <? r then None else Some (DateOf r)
         | _ => Some (DateOf r)
         end.
Proof.
  intros t Ha Hf Hn Hy Htz.
  pose proof (MonthFromTime_range t) as Hm.
  pose proof (TimeWithinDay_range t) as Htw.
  pose proof (DateFromTime_range t) as Hd.
  set (Y := YearFromTime t) in *. set (M := MonthFromTime t) in *.
  set (D := DateFromTime t) in *. set (tw := TimeWithinDay t) in *.
  assert (HD31 : D <= 31).
  { pose proof (MonthStart_bounds (InLeapYear Y) M Hm) as [_ Hlen].
    unfold DaysInMonth in Hd. lia. }
  assert (Hc : candidateDate this now
               = DateOf (MakeDate (MakeDay (Y + 1) M D) tw - LocalTZA)).
  { unfold candidateDate, stepDate.
    rewrite (baseDate_of_nextOccurrence this now n Hn)
      by (apply local_valid; assumption).
    rewrite Hf. unfold setFullYear, getFullYear, jsAdd. fold t Y M D tw.
    apply TimeClip_local; lia. }
  exists (MakeDate (MakeDay (Y + 1) M D) tw - LocalTZA).
  assert (Hciv :
    let r := LocalTime (MakeDate (MakeDay (Y + 1) M D) tw - LocalTZA) in
    YearFromTime r = Y + 1
    /\ (if (M =? 1) && (D =? 29)
        then MonthFromTime r = 2 /\ DateFromTime r = 1
        else MonthFromTime r = M /\ DateFromTime r = D)
    /\ TimeWithinDay r = tw).
  { destruct (Z.eqb_spec M 1) as [EM|NM]; cbn [andb].
    - destruct (Z.eqb_spec D 29) as [ED|ND].
      + (* 29 February: the next year is no leap year *)
        assert (HL : InLeapYear Y = true).
        { rewrite EM, ED in Hd. unfold DaysInMonth in Hd.
          destruct (InLeapYear Y); [reflexivity|cbn in Hd; lia]. }
        assert (HN : InLeapYear (Y + 1) = false).
        { revert HL. unfold InLeapYear.
          destruct (Z.eqb_spec (Y mod 4) 0), (Z.eqb_spec (Y mod 100) 0),
                   (Z.eqb_spec (Y mod 400) 0),
                   (Z.eqb_spec ((Y + 1) mod 4) 0),
                   (Z.eqb_spec ((Y + 1) mod 100) 0),
                   (Z.eqb_spec ((Y + 1) mod 400) 0); cbn; intros;
            try reflexivity; try discriminate;
            exfalso; Z.div_mod_to_equations; lia. }
        assert (E : MakeDay (Y + 1) M D = MakeDay (Y + 1) 2 1).
        { rewrite EM, ED. rewrite !MakeDay_normal by lia. rewrite HN.
          cbn [MonthStart]. lia. }
        rewrite E.
        destruct (civil_local (Y + 1) 2 1 tw ltac:(lia)
                    ltac:(rewrite HN; cbn; lia) Htw) as (A & B & C & E').
        cbv zeta. auto.
      + assert (HD : D <= DaysInMonth (InLeapYear (Y + 1)) M).
        { rewrite EM in *. unfold DaysInMonth in *.
          destruct (InLeapYear Y), (InLeapYear (Y + 1)); cbn in *; lia. }
        destruct (civil_local (Y + 1) M D tw Hm ltac:(lia) Htw)
          as (A & B & C & E').
        cbv zeta. auto.
    - assert (HD : D <= DaysInMonth (InLeapYear (Y + 1)) M).
      { unfold DaysInMonth in *. month_cases M Hcase.
        destruct (InLeapYear Y), (InLeapYear (Y + 1));
          repeat (destruct Hcase as [Hcase|Hcase]);
          rewrite Hcase in *; cbn in *; lia. }
      destruct (civil_local (Y + 1) M D tw Hm ltac:(lia) Htw)
        as (A & B & C & E').
      cbv zeta. auto. }
  cbv zeta in Hciv. destruct Hciv as (A & B & C).
  split; [exact A|]. split; [exact B|]. split; [exact C|].
  now apply calculateNextOccurrence_of_candidate.
Qed.

(** X5.  The result of the method does not depend on the clock: both
    branches of its "in the future" test copy [nextOccurrence], so a
    reference that lies several periods in the past is advanced by a single
    period. *)
Theorem calculateNextOccurrence_ignores_clock (this : doc) (now now' : Z) :
  calculateNextOccurrence this now = calculateNextOccurrence this now'.
Proof. apply calculateNextOccurrence_clock. Qed.

(** X6.  When the hook recomputes (a new document, or a modified
    [frequency], [startDate] or [endDate]), the value [nextOccurrence] had
    before plays no part: the hook starts again from [startDate].  A start
    date that is not in the past becomes the next occurrence as it is. *)
Theorem preSave_restarts_from_startDate (info : SaveInfo) (now : Z)
    (this : doc) (v : option Z) :
  isNew info || modifiedFrequency info || modifiedStartDate info
    || modifiedEndDate info = true ->
  preSave info now (with_nextOccurrence v this) = preSave info now this
  /\ (now <= startDate this ->
      nextOccurrence (preSave info now this) = Some (startDate this)).
Proof.
  intros Hc. unfold preSave. rewrite Hc. split; [reflexivity|].
  intros Hs. cbv zeta.
  change (startDate (with_nextOccurrence (Some (startDate this)) this))
    with (startDate this).
  now replace (startDate this <? now) with false
    by (symmetry; apply Z.ltb_ge; lia).
Qed.

(** X7.  On a host whose offset from UTC is constant, a daily template
    saved with a start date in the past gets [startDate] plus 24 hours as
    its next occurrence, however long ago the start date is: the hook does
    not look for the first date after [now]. *)
Theorem preSave_past_start_daily (info : SaveInfo) (now : Z) (this : doc) :
  isNew info || modifiedFrequency info || modifiedStartDate info
    || modifiedEndDate info = true ->
  isActive this = true ->
  frequency this = daily ->
  (forall e, endDate this <> Val e) ->
  startDate this < now ->
  Z.abs (startDate this) <= maxTime - msPerDay ->
  nextOccurrence (preSave info now this) = Some (startDate this + msPerDay).
Proof.
  intros Hc Ha Hf He Hs Hr. unfold preSave. rewrite Hc. cbv zeta.
  set (this' := with_nextOccurrence (Some (startDate this)) this).
  change (startDate this') with (startDate this).
  replace (startDate this <? now) with true by (symmetry; now apply Z.ltb_lt).
  assert (Hcand : candidateDate this' now = DateOf (startDate this + msPerDay)).
  { rewrite (candidateDate_daily this' now (startDate this) Hf eq_refl)
      by (unfold maxTime, msPerDay in *; lia).
    apply TimeClip_valid. unfold maxTime, msPerDay in *. lia. }
  rewrite (calculateNextOccurrence_of_candidate this' now _ Ha Hcand).
  change (endDate this') with (endDate this).
  destruct (endDate this) as [| |e]; try reflexivity.
  now contradiction (He e).
Qed.

(* ================================================================== *)
(** ** Further properties: the batch processor *)
(* ================================================================== *)

(** X9.  A cycle, whether it returns or throws, leaves every template it
    does not select stored as it was. *)
Theorem cycle_leaves_unselected_untouched (F : Faults) (now : Z) (w : World)
    (d : doc) :
  NoDup (map _id (recurring w)) ->
  In d (recurring w) ->
  dueFilter now d = false ->
  In d (recurring (snd (processRecurringTransactions F now w))).
Proof.
  intros Hnd Hin Hnot. rewrite cycle_aborts. exact Hin.
Qed.

(* ================================================================== *)
(** ** Further properties: creating a template *)
(* ================================================================== *)

Lemma createTransaction_initial (F : Faults) (now : Z) (rt : doc)
    (l : list Transaction.doc) :
  createTransaction F now (initialMockReq rt)
                    (mockRes "Failed to create initial transaction") l =
  if validateTransaction now (newTransaction now (initialMockReq rt))
     && negb (insertFails F (newTransaction now (initialMockReq rt)))
  then (Normal tt, (l ++ [newTransaction now (initialMockReq rt)])%list)
  else (Throw (mkError "Failed to create transaction"), l).
Proof.
  unfold createTransaction. cbn.
  now destruct (validateTransaction now
                  (newTransaction now (initialMockReq rt))
                && negb (insertFails F
                           (newTransaction now (initialMockReq rt)))).
Qed.

(** The handler case by case: a guard answers 400 and touches nothing; a
    document that the validators refuse is an error; a duplicate key is
    answered with 400; otherwise the initial entry is written unless the
    body opts out, and the template is stored when that write and the
    commit go through. *)
Lemma create_outcome (F : Faults) (verdict : CreateVerdict) (newId : ObjectId)
    (now : Z) (user : ObjectId) (body : CreateBody.t) (w : World) :
  let p := CreateBody.paths body in
  let r := createRecurringTransaction F verdict newId now user body w in
  (missingCadenceField p = true
   /\ (exists m, fst r = PassedToNext (mkError m) (Some 400)) /\ snd r = w)
  \/ (missingCadenceField p = false
      /\ match verdict, buildTemplate newId user now p with
         | Accepted, Some built =>
             let rt := preSave newDocument now built in
             let entry := newTransaction now (initialMockReq rt) in
             let wanted :=
               match CreateBody.createInitialTransaction body with
               | Some false => false
               | _ => true
               end in
             let written :=
               validateTransaction now entry
               && negb (insertFails F entry) in
             transactions (snd r)
             = (if wanted && written
                then (transactions w ++ [entry])%list
                else transactions w)
             /\ if (negb wanted || written) && negb (commitFails F)
                then fst r = Responded 201 rt
                     /\ recurring (snd r) = (recurring w ++ [rt])%list
                     /\ errorLog (snd r) = errorLog w
                else (exists e, fst r = PassedToNext e None)
                     /\ recurring (snd r) = recurring w
         | DuplicateKey, Some _ =>
             (exists m, fst r = PassedToNext (mkError m) (Some 400))
             /\ recurring (snd r) = recurring w
             /\ transactions (snd r) = transactions w
         | _, _ =>
             (exists e, fst r = PassedToNext e None)
             /\ recurring (snd r) = recurring w
             /\ transactions (snd r) = transactions w
         end).
Proof.
  cbv zeta. unfold createRecurringTransaction, missingCadenceField.
  set (p := CreateBody.paths body).
  destruct (frequencyIs monthly (Patch.frequency p)
            && falsyNumber (Patch.dayOfMonth p)).
  { left. cbn. eauto. }
  destruct (frequencyIs weekly (Patch.frequency p)
            && negb (isSome (Patch.dayOfWeek p))).
  { left. cbn. eauto. }
  destruct (frequencyIs yearly (Patch.frequency p)
            && negb (isSome (Patch.month p))).
  { left. cbn. eauto. }
  right. split; [reflexivity|].
  destruct verdict, (buildTemplate newId user now p) as [built|];
    try (cbn; eauto; fail).
  set (rt := preSave newDocument now built).
  set (entry := newTransaction now (initialMockReq rt)).
  assert (Hinit :
    createTransaction F now (initialMockReq rt)
      (mockRes "Failed to create initial transaction") (transactions w)
    = if validateTransaction now entry && negb (insertFails F entry)
      then (Normal tt, (transactions w ++ [entry])%list)
      else (Throw (mkError "Failed to create transaction"), transactions w))
    by apply createTransaction_initial.
  destruct (CreateBody.createInitialTransaction body) as [[|]|];
    try rewrite Hinit;
    destruct (validateTransaction now entry && negb (insertFails F entry));
    destruct (commitFails F); cbn; eauto.
Qed.

(** X12.  What creating a template does.  When it answers 201, the
    document was accepted, the new template is appended to the collection,
    nothing is logged, and the ledger gets exactly the initial entry, or
    nothing when the body carries [createInitialTransaction: false].  In
    every other case the collection is as before and the ledger has grown
    by at most one entry.  The handler raises a 400 of its own exactly
    when one of the three cadence guards fires or the insert hits a
    duplicate key; then the ledger is as before, and after a guard nothing
    at all has changed. *)
Theorem createRecurringTransaction_effects (F : Faults)
    (verdict : CreateVerdict) (newId : ObjectId) (now : Z) (user : ObjectId)
    (body : CreateBody.t) (w : World) :
  let r := createRecurringTransaction F verdict newId now user body w in
  match fst r with
  | Responded code rt =>
      code = 201
      /\ verdict = Accepted
      /\ missingCadenceField (CreateBody.paths body) = false
      /\ recurring (snd r) = (recurring w ++ [rt])%list
      /\ errorLog (snd r) = errorLog w
      /\ transactions (snd r)
         = match CreateBody.createInitialTransaction body with
           | Some false => transactions w
           | _ => (transactions w
                   ++ [newTransaction now (initialMockReq rt)])%list
           end
  | PassedToNext e code =>
      recurring (snd r) = recurring w
      /\ (exists added, transactions (snd r) = (transactions w ++ added)%list
                        /\ (List.length added <= 1)%nat)
      /\ (code = Some 400
          <-> missingCadenceField (CreateBody.paths body) = true
              \/ (verdict = DuplicateKey
                  /\ buildTemplate newId user now (CreateBody.paths body)
                     <> None))
      /\ (code = Some 400 -> transactions (snd r) = transactions w)
      /\ (missingCadenceField (CreateBody.paths body) = true -> snd r = w)
  end.
Proof.
  cbv zeta.
  pose proof (create_outcome F verdict newId now user body w) as H.
  cbv zeta in H.
  destruct H as [(Hg & (m & Hr) & Hw) | (Hg & H)].
  - rewrite Hr, Hw, Hg. split; [reflexivity|]. split.
    + exists []. rewrite app_nil_r. split; [reflexivity|cbn; lia].
    + repeat split; auto.
  - rewrite Hg.
    assert (Hnone : forall (e : JsError) (w' : World),
      recurring w' = recurring w -> transactions w' = transactions w ->
      (verdict = DuplicateKey
       /\ buildTemplate newId user now (CreateBody.paths body) <> None
       -> False) ->
      recurring w' = recurring w
      /\ (exists added, transactions w' = (transactions w ++ added)%list
                        /\ (List.length added <= 1)%nat)
      /\ (@None Z = Some 400
          <-> false = true
              \/ (verdict = DuplicateKey
                  /\ buildTemplate newId user now (CreateBody.paths body)
                     <> None))
      /\ (@None Z = Some 400 -> transactions w' = transactions w)
      /\ (false = true -> w' = w)).
    { intros e w' Hrec Hled Hno. split; [exact Hrec|]. split.
      - exists []. rewrite app_nil_r. split; [exact Hled|cbn; lia].
      - repeat split; try discriminate.
        intros [Habs|Hdup]; [discriminate|]. now contradiction (Hno Hdup). }
    destruct verdict, (buildTemplate newId user now (CreateBody.paths body))
      as [built|] eqn:Hb.
    + destruct H as ((e & Hr) & Hrec & Hled). rewrite Hr.
      apply (Hnone e); try assumption. intros [Habs _]. discriminate.
    + destruct H as ((e & Hr) & Hrec & Hled). rewrite Hr.
      apply (Hnone e); try assumption. intros [Habs _]. discriminate.
    + destruct H as ((m & Hr) & Hrec & Hled). rewrite Hr.
      split; [exact Hrec|]. split.
      * exists []. rewrite app_nil_r. split; [exact Hled|cbn; lia].
      * repeat split; try discriminate; auto.
        right. split; [reflexivity|discriminate].
    + destruct H as ((e & Hr) & Hrec & Hled). rewrite Hr.
      apply (Hnone e); try assumption. intros [_ Habs]. now apply Habs.
    + set (rt := preSave newDocument now built) in *.
      set (entry := newTransaction now (initialMockReq rt)) in *.
      destruct H as [Hled H].
      destruct (CreateBody.createInitialTransaction body) as [[|]|];
        destruct (validateTransaction now entry
                  && negb (insertFails F entry));
        destruct (commitFails F); cbn in Hled, H;
        try (destruct H as (Hr & Hrec & Hlog); rewrite Hr;
             repeat (split; [first [reflexivity | assumption]|]);
             assumption);
        destruct H as ((e & Hr) & Hrec); rewrite Hr;
        (split; [exact Hrec|]);
        (split; [first [ exists [entry]; split; [exact Hled|cbn; lia]
                       | exists []; rewrite app_nil_r;
                         split; [exact Hled|cbn; lia] ]|]);
        (split; [split; [discriminate|];
                 intros [Habs|[Habs _]]; discriminate|]);
        (split; discriminate).
    + destruct H as ((e & Hr) & Hrec & Hled). rewrite Hr.
      apply (Hnone e); try assumption. intros [Habs _]. discriminate.
Qed.

(** X13.  The initial entry is saved outside the session of the handler:
    when the commit fails after the entry was written, the request ends in
    an error, no template is stored, and the entry stays in the ledger. *)
Theorem create_commit_failure_keeps_entry (F : Faults) (newId : ObjectId)
    (now : Z) (user : ObjectId) (body : CreateBody.t) (w : World)
    (built : doc) :
  missingCadenceField (CreateBody.paths body) = false ->
  buildTemplate newId user now (CreateBody.paths body) = Some built ->
  CreateBody.createInitialTransaction body <> Some false ->
  let rt := preSave newDocument now built in
  let entry := newTransaction now (initialMockReq rt) in
  validateTransaction now entry && negb (insertFails F entry) = true ->
  commitFails F = true ->
  let r := createRecurringTransaction F Accepted newId now user body w in
  (exists e, fst r = PassedToNext e None)
  /\ recurring (snd r) = recurring w
  /\ transactions (snd r) = (transactions w ++ [entry])%list.
Proof.
  intros Hg Hb Hwant rt entry Hok Hc r.
  pose proof (create_outcome F Accepted newId now user body w) as H.
  cbv zeta in H. rewrite Hg, Hb in H.
  destruct H as [(Habs & _) | (_ & Hled & H)]; [discriminate|].
  fold rt entry in Hled, H. rewrite Hok in Hled, H. rewrite Hc in H.
  assert (Hw : match CreateBody.createInitialTransaction body with
               | Some false => false
               | _ => true
               end = true).
  { destruct (CreateBody.createInitialTransaction body) as [[|]|];
      [reflexivity| |reflexivity]. now contradiction Hwant. }
  rewrite Hw in Hled, H. cbn in Hled, H. destruct H as [He Hrec].
  repeat split; assumption.
Qed.

(** X8.  The template schema admits the categories 'Rent/Mortgage' and
    'Subscriptions', which the ledger schema does not list.  A request to
    create a template in one of them that does not opt out of the initial
    entry never answers 201: the initial entry does not pass the ledger's
    validation, so the handler ends in an error, and neither a template
    nor a ledger entry is stored. *)
Theorem create_unlisted_category_fails (F : Faults) (verdict : CreateVerdict)
    (newId : ObjectId) (now : Z) (user : ObjectId) (body : CreateBody.t)
    (w : World) (c : string) :
  Patch.category (CreateBody.paths body) = Some c ->
  In (trim c) ["Rent/Mortgage"; "Subscriptions"] ->
  CreateBody.createInitialTransaction body <> Some false ->
  let r := createRecurringTransaction F verdict newId now user body w in
  inEnum (trim c) recurringCategories = true
  /\ inEnum (trim c) transactionCategories = false
  /\ (exists e code, fst r = PassedToNext e code)
  /\ recurring (snd r) = recurring w
  /\ transactions (snd r) = transactions w.
Proof.
  intros Hc Hin Hwant r.
  split; [destruct Hin as [<-|[<-|[]]]; reflexivity|].
  split; [destruct Hin as [<-|[<-|[]]]; reflexivity|].
  pose proof (create_outcome F verdict newId now user body w) as H.
  cbv zeta in H. fold r in H.
  destruct H as [(_ & (m & Hr) & Hw) | (_ & H)].
  { rewrite Hr, Hw. eauto. }
  destruct verdict,
    (buildTemplate newId user now (CreateBody.paths body)) as [built|] eqn:Hb;
    try (destruct H as ((e & Hr) & Hrec & Hled); rewrite Hr; eauto; fail).
  assert (Hcat : category built = trim c).
  { unfold buildTemplate in Hb. rewrite Hc in Hb.
    destruct (Patch.type (CreateBody.paths body)); [|discriminate].
    destruct (Patch.amount (CreateBody.paths body)); [|discriminate].
    destruct (Patch.frequency (CreateBody.paths body)); [|discriminate].
    injection Hb as <-. reflexivity. }
  set (rt := preSave newDocument now built) in *.
  assert (Hrt : category rt = trim c).
  { unfold rt, preSave. cbn [newDocument isNew orb]. cbv zeta.
    destruct (_ <? _); exact Hcat. }
  set (entry := newTransaction now (initialMockReq rt)) in *.
  assert (Hno : validateTransaction now entry = false).
  { unfold validateTransaction.
    assert (E : inEnum (Transaction.category entry) transactionCategories
                = false).
    { unfold entry.
      cbn [newTransaction initialMockReq Req.body Body.category
           Transaction.category].
      rewrite Hrt. destruct Hin as [<-|[<-|[]]]; vm_compute; reflexivity. }
    rewrite E. now rewrite !andb_false_r. }
  rewrite Hno in H. cbn [andb] in H.
  assert (Hw : match CreateBody.createInitialTransaction body with
               | Some false => false
               | _ => true
               end = true).
  { destruct (CreateBody.createInitialTransaction body) as [[|]|];
      [reflexivity| |reflexivity]. now contradiction Hwant. }
  rewrite Hw in H. cbn in H. destruct H as (Hled & (e & Hr) & Hrec).
  rewrite Hr. eauto.
Qed.

(* ================================================================== *)
(** ** Further properties: reading, toggling and deleting a template *)
(* ================================================================== *)

Lemma same_id_same_doc (c : list doc) (a b : doc) :
  NoDup (map _id c) -> In a c -> In b c -> _id a = _id b -> a = b.
Proof.
  induction c as [|x c IH]; [contradiction|]. cbn [map].
  intros H Ha Hb E. inversion H as [|? ? Hfresh Hrest]; subst.
  destruct Ha as [->|Ha], Hb as [->|Hb]; try reflexivity.
  - exfalso. apply Hfresh. rewrite E. now apply in_map.
  - exfalso. apply Hfresh. rewrite <- E. now apply in_map.
  - now apply IH.
Qed.

Lemma findOne_some (id user : ObjectId) (c : list doc) (d : doc) :
  findOne id user c = Some d -> In d c /\ _id d = id /\ userId d = user.
Proof.
  intros H. apply find_some in H. destruct H as [Hin Hb].
  apply andb_true_iff in Hb. destruct Hb as [Hi Hu].
  apply Nat.eqb_eq in Hi, Hu. auto.
Qed.

Lemma findOne_none (id user : ObjectId) (c : list doc) :
  (forall d, In d c -> _id d = id -> userId d <> user) ->
  findOne id user c = None.
Proof.
  intros H. destruct (findOne id user c) as [d|] eqn:E; [|reflexivity].
  apply findOne_some in E. destruct E as (Hin & Hi & Hu).
  now contradiction (H d Hin Hi).
Qed.

(** Writing twice under one id keeps the second write; writing back the
    document that [findOne] returned changes nothing, since ids are
    unique. *)
Lemma replaceDoc_twice (c : list doc) (d1 d2 : doc) :
  _id d1 = _id d2 -> replaceDoc d2 (replaceDoc d1 c) = replaceDoc d2 c.
Proof.
  intros E. induction c as [|d rest IH]; [reflexivity|].
  cbn [replaceDoc]. rewrite <- E.
  destruct (Nat.eqb (_id d) (_id d1)) eqn:Ed; cbn [replaceDoc].
  - now rewrite <- E, Nat.eqb_refl.
  - rewrite <- E, Ed. f_equal. exact IH.
Qed.


Lemma findOne_replaceDoc (id user : ObjectId) (c : list doc) (rt d1 : doc) :
  findOne id user c = Some rt ->
  _id d1 = id -> userId d1 = user ->
  findOne id user (replaceDoc d1 c) = Some d1.
Proof.
  intros Hf H1 Hu. induction c as [|d rest IH]; [discriminate|].
  unfold findOne in *. cbn [replaceDoc find] in *. rewrite H1.
  destruct (Nat.eqb_spec (_id d) id) as [Ei|Ni].
  - cbn [find]. now rewrite H1, Hu, !Nat.eqb_refl.
  - cbn [find andb] in *.
    replace (Nat.eqb (_id d) id) with false
      by (symmetry; now apply Nat.eqb_neq).
    cbn [andb]. now apply IH.
Qed.

(** A toggle that does not recompute: deactivation, or reactivation with a
    [nextOccurrence] that is not in the past. *)
Lemma toggle_plain (now : Z) (id user : ObjectId) (c : list doc)
    (rt : doc) (n : Z) :
  findOne id user c = Some rt ->
  nextOccurrence rt = Some n ->
  (isActive rt = false -> now <= n) ->
  toggleActiveStatus now id user c
  = (Responded 200 (with_isActive (negb (isActive rt)) rt),
     replaceDoc (with_isActive (negb (isActive rt)) rt) c).
Proof.
  intros Hf Hn Hfresh. unfold toggleActiveStatus. rewrite Hf.
  set (rt' := with_isActive (negb (isActive rt)) rt).
  assert (Hn' : nextOccurrence rt' = Some n) by exact Hn.
  assert (Ha' : isActive rt' = negb (isActive rt)) by reflexivity.
  cbv zeta. rewrite Hn', Ha'.
  assert (E : negb (isActive rt) && (n <? now) = false).
  { destruct (isActive rt); [reflexivity|]. cbn.
    apply Z.ltb_ge. now apply Hfresh. }
  rewrite E. unfold saveDocument. rewrite Hn'. reflexivity.
Qed.

Lemma removeDoc_spec (id user : ObjectId) (c : list doc) (d : doc) :
  NoDup (map _id c) ->
  findOne id user c = Some d ->
  forall x, In x (removeDoc id user c) <-> In x c /\ x <> d.
Proof.
  intros Hnd Hf. induction c as [|h rest IH]; [discriminate|].
  inversion Hnd as [|? ? Hnot Hnd']; subst.
  unfold findOne in Hf. cbn [find removeDoc] in *.
  destruct (Nat.eqb (_id h) id && Nat.eqb (userId h) user) eqn:Eh.
  - injection Hf as <-. intros x. split.
    + intros Hin. split; [now right|]. intros ->. apply Hnot.
      now apply in_map.
    + intros [[->|Hin] Hne]; [now contradiction Hne|exact Hin].
  - intros x. cbn [In]. rewrite (IH Hnd' Hf x).
    destruct (findOne_some id user rest d Hf) as (Hin & Hi & Hu).
    split.
    + intros [<-|[Hx Hne]]; [|tauto]. split; [now left|].
      intros ->. rewrite Hi, Hu, !Nat.eqb_refl in Eh. discriminate.
    + intros [[<-|Hx] Hne]; [now left|right; tauto].
Qed.

(** X15.  A template is visible to its owner only: when no stored template
    has both the id and the user of the request, reading, updating,
    toggling and deleting all answer 404 and change nothing. *)
Theorem foreign_template_not_found (F : Faults) (now : Z)
    (id user : ObjectId) (body : Patch.t) (w : World) :
  (forall d, In d (recurring w) -> _id d = id -> userId d <> user) ->
  let notFound := mkError "No recurring transaction found with that ID" in
  getRecurringTransaction id user (recurring w)
    = PassedToNext notFound (Some 404)
  /\ updateRecurringTransaction true id user body (recurring w)
     = (PassedToNext notFound (Some 404), recurring w)
  /\ toggleActiveStatus now id user (recurring w)
     = (PassedToNext notFound (Some 404), recurring w)
  /\ deleteRecurringTransaction F id user w
     = (Forwarded notFound (Some 404), w).
Proof.
  intros H notFound. pose proof (findOne_none id user (recurring w) H) as E.
  unfold getRecurringTransaction, updateRecurringTransaction,
    toggleActiveStatus, deleteRecurringTransaction.
  rewrite E. repeat split; reflexivity.
Qed.

(** X16.  Deleting a template removes that template and no other, leaves
    the ledger (and so the entries the template produced) as it is, and
    makes the template unreadable. *)
Theorem delete_removes_the_template (F : Faults) (id user : ObjectId)
    (w : World) (d : doc) :
  NoDup (map _id (recurring w)) ->
  findOne id user (recurring w) = Some d ->
  commitFails F = false ->
  let r := deleteRecurringTransaction F id user w in
  fst r = Answered 204
  /\ (forall x, In x (recurring (snd r)) <-> In x (recurring w) /\ x <> d)
  /\ transactions (snd r) = transactions w
  /\ getRecurringTransaction id user (recurring (snd r))
     = PassedToNext (mkError "No recurring transaction found with that ID")
                    (Some 404).
Proof.
  intros Hnd Hf Hc r. unfold r, deleteRecurringTransaction.
  rewrite Hf, Hc. cbn [fst snd recurring transactions].
  pose proof (removeDoc_spec id user (recurring w) d Hnd Hf) as Hspec.
  split; [reflexivity|]. split; [exact Hspec|]. split; [reflexivity|].
  unfold getRecurringTransaction. rewrite findOne_none; [reflexivity|].
  intros x Hx Hi _. apply Hspec in Hx. destruct Hx as [Hx Hne].
  destruct (findOne_some id user _ d Hf) as (Hd & Hdi & _).
  apply Hne. apply (same_id_same_doc (recurring w)); congruence.
Qed.


(** X18.  On a host whose offset from UTC is constant, pausing and
    resuming a daily template whose [nextOccurrence] has passed moves
    [nextOccurrence] on by 24 hours without any ledger entry: the
    occurrence that was due is dropped, and the new date need not be after
    the time of reactivation. *)
Theorem pause_resume_moves_one_day (now1 now2 : Z) (id user : ObjectId)
    (c : list doc) (rt : doc) (n : Z) :
  NoDup (map _id c) ->
  findOne id user c = Some rt ->
  isActive rt = true ->
  frequency rt = daily ->
  nextOccurrence rt = Some n ->
  (forall e, endDate rt <> Val e) ->
  n < now2 ->
  Z.abs n <= maxTime - msPerDay ->
  let r1 := toggleActiveStatus now1 id user c in
  let r2 := toggleActiveStatus now2 id user (snd r1) in
  let resumed := with_nextOccurrence (Some (n + msPerDay)) rt in
  fst r2 = Responded 200 resumed /\ snd r2 = replaceDoc resumed c.
Proof.
  intros Hnd Hf Ha Hfreq Hn He Hlt Hr r1 r2 resumed.
  destruct (findOne_some id user c rt Hf) as (Hin & Hi & Hu).
  set (off := with_isActive (negb (isActive rt)) rt).
  assert (E1 : r1 = (Responded 200 off, replaceDoc off c)).
  { apply (toggle_plain now1 id user c rt n Hf Hn). congruence. }
  assert (Hf' : findOne id user (replaceDoc off c) = Some off)
    by (apply (findOne_replaceDoc id user c rt off); assumption).
  set (on := with_isActive (negb (isActive off)) off).
  assert (Hon : on = with_isActive true rt).
  { unfold on, off. rewrite Ha. destruct rt. reflexivity. }
  assert (Hcand : candidateDate on now2 = DateOf (n + msPerDay)).
  { rewrite (candidateDate_daily on now2 n Hfreq Hn)
      by (unfold maxTime, msPerDay in *; lia).
    apply TimeClip_valid. unfold maxTime, msPerDay in *. lia. }
  assert (Hcalc : calculateNextOccurrence on now2
                  = Some (DateOf (n + msPerDay))).
  { rewrite (calculateNextOccurrence_of_candidate on now2 _
               ltac:(rewrite Hon; reflexivity) Hcand).
    change (endDate on) with (endDate rt).
    destruct (endDate rt) as [| |e]; try reflexivity.
    now contradiction (He e). }
  assert (Hres : with_nextOccurrence (Some (n + msPerDay)) on = resumed).
  { rewrite Hon. unfold resumed. destruct rt. cbn in *. now rewrite Ha. }
  unfold r2. rewrite E1. cbn [snd]. unfold toggleActiveStatus.
  rewrite Hf'. fold on. cbv zeta.
  assert (Hn' : nextOccurrence on = Some n) by exact Hn.
  assert (Ha' : isActive on = true) by (rewrite Hon; reflexivity).
  rewrite Hn', Ha'.
  replace (n <? now2) with true by (symmetry; now apply Z.ltb_lt).
  cbn [andb]. unfold newRecurringTransaction. rewrite Hcalc.
  cbv beta iota. rewrite Hres.
  unfold saveDocument. cbn [nextOccurrence resumed with_nextOccurrence].
  unfold preSave. cbn [unmodifiedCadence isNew modifiedFrequency
                       modifiedStartDate modifiedEndDate orb].
  cbn [fst snd]. split; [reflexivity|].
  now apply replaceDoc_twice.
Qed.

(* ================================================================== *)
(** ** Further properties: the listings *)
(* ================================================================== *)

Lemma placeBy_perm {A : Type} (before : A -> A -> bool) (x : A)
    (sorted : list A) :
  Permutation (placeBy before x sorted) (x :: sorted).
Proof.
  induction sorted as [|y rest IH]; cbn [placeBy]; [reflexivity|].
  destruct (before x y); [reflexivity|].
  rewrite IH. apply perm_swap.
Qed.

Lemma sortBy_perm {A : Type} (before : A -> A -> bool) (l : list A) :
  Permutation (sortBy before l) l.
Proof.
  induction l as [|x l IH]; [reflexivity|].
  unfold sortBy in *. cbn [fold_right]. rewrite placeBy_perm.
  now apply perm_skip.
Qed.

(** Placing into a list in order keeps it in order, for a total order. *)
Lemma placeBy_sorted {A : Type} (before : A -> A -> bool) (x : A)
    (sorted : list A) :
  (forall a b, before a b = false -> before b a = true) ->
  Sorted (fun a b => before a b = true) sorted ->
  Sorted (fun a b => before a b = true) (placeBy before x sorted).
Proof.
  intros Htot Hs. induction Hs as [|y rest Hrest IH Hhd]; cbn [placeBy].
  - repeat constructor.
  - destruct (before x y) eqn:E.
    + constructor; [now constructor|now constructor].
    + constructor; [exact IH|].
      destruct rest as [|z rest']; cbn [placeBy].
      * constructor. now apply Htot.
      * destruct (before x z).
        -- constructor. now apply Htot.
        -- constructor. now inversion Hhd.
Qed.

Lemma sortBy_sorted {A : Type} (before : A -> A -> bool) (l : list A) :
  (forall a b, before a b = false -> before b a = true) ->
  (forall a b c, before a b = true -> before b c = true ->
                 before a c = true) ->
  StronglySorted (fun a b => before a b = true) (sortBy before l).
Proof.
  intros Htot Htrans. apply Sorted_StronglySorted.
  - intros a b c. apply Htrans.
  - induction l as [|x l IH]; [constructor|].
    unfold sortBy in *. cbn [fold_right]. now apply placeBy_sorted.
Qed.

Lemma nextOccurrenceBefore_total (a b : doc) :
  nextOccurrenceBefore a b = false -> nextOccurrenceBefore b a = true.
Proof.
  unfold nextOccurrenceBefore.
  destruct (nextOccurrence a), (nextOccurrence b);
    try reflexivity; try discriminate.
  rewrite Z.leb_gt, Z.leb_le. lia.
Qed.

Lemma nextOccurrenceBefore_trans (a b c : doc) :
  nextOccurrenceBefore a b = true -> nextOccurrenceBefore b c = true ->
  nextOccurrenceBefore a c = true.
Proof.
  unfold nextOccurrenceBefore.
  destruct (nextOccurrence a), (nextOccurrence b), (nextOccurrence c);
    try reflexivity; try discriminate.
  rewrite !Z.leb_le. lia.
Qed.

Lemma newerFirst_total (a b : Stored.t) :
  newerFirst a b = false -> newerFirst b a = true.
Proof.
  unfold newerFirst.
  rewrite orb_false_iff, andb_false_iff, orb_true_iff, andb_true_iff.
  rewrite !Z.ltb_ge, !Z.ltb_lt, Z.eqb_neq, Z.eqb_eq, Z.leb_gt, Z.leb_le.
  lia.
Qed.

Lemma newerFirst_trans (a b c : Stored.t) :
  newerFirst a b = true -> newerFirst b c = true -> newerFirst a c = true.
Proof.
  unfold newerFirst.
  rewrite !orb_true_iff, !andb_true_iff.
  rewrite !Z.ltb_lt, !Z.eqb_eq, !Z.leb_le.
  lia.
Qed.

(** X19.  The template listing shows exactly the templates of the user
    (the active ones for [status=active], the inactive ones for
    [status=inactive], all of them for any other value), each as often as
    it is stored, in ascending order of [nextOccurrence]. *)
Theorem getAllRecurringTransactions_spec (status : option string)
    (user : ObjectId) (collection : list doc) :
  let shown := getAllRecurringTransactions status user collection in
  (forall d, In d shown <->
     In d collection /\ userId d = user
     /\ (status = Some "active" -> isActive d = true)
     /\ (status = Some "inactive" -> isActive d = false))
  /\ StronglySorted (fun a b => nextOccurrenceBefore a b = true) shown
  /\ (NoDup collection -> NoDup shown).
Proof.
  cbv zeta. unfold getAllRecurringTransactions.
  set (keep := fun d => Nat.eqb (userId d) user && statusFilter status d).
  pose proof (sortBy_perm nextOccurrenceBefore (filter keep collection))
    as Hperm.
  split; [|split].
  - intros d. split.
    + intros Hin. apply (Permutation_in _ Hperm) in Hin.
      apply filter_In in Hin. destruct Hin as [Hin Hk].
      unfold keep in Hk. apply andb_true_iff in Hk. destruct Hk as [Hu Hs].
      apply Nat.eqb_eq in Hu. split; [exact Hin|]. split; [exact Hu|].
      unfold statusFilter in Hs.
      split; intros ->; cbn in Hs; [exact Hs|].
      now destruct (isActive d).
    + intros (Hin & Hu & Hact & Hina).
      apply (Permutation_in _ (Permutation_sym Hperm)).
      apply filter_In. split; [exact Hin|]. unfold keep.
      apply andb_true_iff. split; [now apply Nat.eqb_eq|].
      unfold statusFilter. destruct status as [st|]; [|reflexivity].
      destruct (String.eqb_spec st "active") as [->|_];
        [now apply Hact|].
      destruct (String.eqb_spec st "inactive") as [->|_]; [|reflexivity].
      now rewrite Hina.
  - apply sortBy_sorted.
    + apply nextOccurrenceBefore_total.
    + apply nextOccurrenceBefore_trans.
  - intros Hnd. apply (Permutation_NoDup (Permutation_sym Hperm)).
    now apply NoDup_filter.
Qed.

Lemma In_page {A : Type} (pageNum limitNum : positive) (found : list A)
    (x : A) :
  In x (pageOf pageNum limitNum found) -> In x found.
Proof.
  unfold pageOf. intros H.
  set (n := Z.to_nat ((Z.pos pageNum - 1) * Z.pos limitNum)) in *.
  rewrite <- (firstn_skipn n found). apply in_or_app. right.
  rewrite <- (firstn_skipn (Pos.to_nat limitNum) (skipn n found)).
  apply in_or_app. now left.
Qed.

Lemma stretch_sorted {A : Type} (R : A -> A -> Prop) (l : list A) :
  StronglySorted R l ->
  forall n, StronglySorted R (firstn n l) /\ StronglySorted R (skipn n l).
Proof.
  induction 1 as [|a l Hl IH Hall]; intros n.
  - rewrite firstn_nil, skipn_nil. split; constructor.
  - destruct n as [|n]; cbn [firstn skipn].
    + split; constructor; assumption.
    + destruct (IH n) as [Hf Hs]. split; [|exact Hs].
      constructor; [exact Hf|].
      rewrite Forall_forall in *. intros x Hx. apply Hall.
      rewrite <- (firstn_skipn n l). apply in_or_app. now left.
Qed.

(** A page is not empty exactly when the matches reach it. *)
Lemma page_nonempty {A : Type} (pageNum limitNum : positive)
    (found : list A) :
  pageOf pageNum limitNum found <> []
  <-> (Z.pos pageNum - 1) * Z.pos limitNum < Z.of_nat (List.length found).
Proof.
  unfold pageOf.
  set (m := (Z.pos pageNum - 1) * Z.pos limitNum).
  assert (Hm : 0 <= m) by (unfold m; nia).
  rewrite <- length_zero_iff_nil, length_firstn, length_skipn. lia.
Qed.

(** The two ways of reckoning whether a further page exists. *)
Lemma more_pages (pageNum limitNum total : Z) :
  0 < limitNum ->
  (pageNum <? ceilDiv total limitNum) = (pageNum * limitNum <? total).
Proof.
  intros HL. unfold ceilDiv.
  pose proof (Z.div_mod (total + limitNum - 1) limitNum ltac:(lia)) as Hd.
  pose proof (Z.mod_pos_bound (total + limitNum - 1) limitNum HL) as Hb.
  set (c := (total + limitNum - 1) / limitNum) in *.
  destruct (Z.ltb_spec pageNum c), (Z.ltb_spec (pageNum * limitNum) total);
    try reflexivity; exfalso; nia.
Qed.

(** X20.  A page of the transaction listing holds at most [limit]
    transactions, all of the requesting user, newest first; without a
    search none of them is marked as coming from a template.  [hasNext] is
    set exactly when the request for the following page shows
    something. *)
Theorem getTransactions_page (regexTest : string -> string -> bool)
    (q : ListQuery.t) (user : ObjectId) (store : list Stored.t)
    (shown : list Stored.t) (pg : Pagination) :
  getTransactions regexTest q user store = inl (shown, pg) ->
  (List.length shown <= Pos.to_nat (ListQuery.limit q))%nat
  /\ (forall s, In s shown ->
        In s store
        /\ Transaction.userId (Stored.fields s) = user
        /\ (nonEmpty (ListQuery.search q) = None ->
            Transaction.isFromRecurring (Stored.fields s) = false))
  /\ StronglySorted (fun a b => newerFirst a b = true) shown
  /\ (hasNext pg = true <->
      listed (getTransactions regexTest
                (atPage (Pos.succ (ListQuery.page q)) q) user store) <> []).
Proof.
  unfold getTransactions.
  change (dateBounds (atPage (Pos.succ (ListQuery.page q)) q))
    with (dateBounds q).
  destruct (dateBounds q) as [bounds|]; [|discriminate].
  change (listFilter regexTest (atPage (Pos.succ (ListQuery.page q)) q))
    with (listFilter regexTest q).
  cbn [atPage ListQuery.page ListQuery.limit listed].
  set (matching := filter (listFilter regexTest q user bounds) store).
  pose proof (sortBy_perm newerFirst matching) as Hperm.
  set (found := sortBy newerFirst matching) in *.
  intros H. injection H as <- <-.
  split; [|split; [|split]].
  - unfold pageOf. rewrite length_firstn. lia.
  - intros s Hs. apply In_page in Hs.
    apply (Permutation_in _ Hperm) in Hs.
    apply filter_In in Hs. destruct Hs as [Hin Hk].
    unfold listFilter in Hk. cbv zeta in Hk.
    rewrite !andb_true_iff in Hk.
    destruct Hk as [[[[[Hu Hsearch] _] _] _] _].
    apply Nat.eqb_eq in Hu. split; [exact Hin|]. split; [exact Hu|].
    intros Hnone. rewrite Hnone in Hsearch.
    now destruct (Transaction.isFromRecurring (Stored.fields s)).
  - unfold pageOf.
    assert (Hsorted : StronglySorted (fun a b => newerFirst a b = true) found).
    { apply sortBy_sorted; [apply newerFirst_total|apply newerFirst_trans]. }
    apply stretch_sorted. now apply stretch_sorted.
  - cbn [hasNext paginationOf]. rewrite more_pages by lia.
    rewrite page_nonempty, Z.ltb_lt.
    rewrite (Permutation_length Hperm). lia.
Qed.

Lemma firstn_further {A : Type} (a b : nat) (l : list A) :
  firstn (a + b) l = (firstn a l ++ firstn b (skipn a l))%list.
Proof.
  revert l. induction a as [|a IH]; intros l; [reflexivity|].
  destruct l as [|x l]; cbn [Nat.add firstn skipn app].
  - now rewrite firstn_nil.
  - now rewrite IH.
Qed.

Lemma pages_up_to {A : Type} (limitNum : positive) (found : list A)
    (m : nat) :
  List.concat (map (fun k => pageOf (Pos.of_nat k) limitNum found) (seq 1 m))
  = firstn (m * Pos.to_nat limitNum) found.
Proof.
  induction m as [|m IH]; [reflexivity|].
  rewrite seq_S, map_app, concat_app, IH. cbn [map List.concat].
  rewrite app_nil_r. unfold pageOf.
  replace (Z.to_nat ((Z.pos (Pos.of_nat (1 + m)) - 1) * Z.pos limitNum))
    with (m * Pos.to_nat limitNum)%nat.
  - rewrite <- firstn_further. f_equal. lia.
  - change (1 + m)%nat with (S m).
    rewrite <- Pos.of_nat_succ, Zpos_P_of_succ_nat.
    replace (Z.succ (Z.of_nat m) - 1) with (Z.of_nat m) by lia.
    rewrite Z2Nat.inj_mul by lia. rewrite Nat2Z.id. reflexivity.
Qed.

Lemma newerFirst_same_key (a b : Stored.t) :
  newerFirst a b = true -> newerFirst b a = true -> sortKey a = sortKey b.
Proof.
  unfold newerFirst, sortKey.
  rewrite !orb_true_iff, !andb_true_iff, !Z.ltb_lt, !Z.eqb_eq, !Z.leb_le.
  intros H1 H2. f_equal; lia.
Qed.

Lemma keys_of_matches (keep : Stored.t -> bool) (store : list Stored.t) :
  NoDup (map sortKey store) -> NoDup (map sortKey (filter keep store)).
Proof.
  induction store as [|x rest IH]; cbn [filter map]; intros H; [constructor|].
  inversion H as [|? ? Hfresh Hrest]; subst.
  destruct (keep x); cbn [map]; [|now apply IH].
  constructor; [|now apply IH].
  intros Hin. apply Hfresh. apply in_map_iff in Hin.
  destruct Hin as (y & Hy & Hin). apply filter_In in Hin.
  rewrite <- Hy. apply in_map. tauto.
Qed.

(** With distinct keys the sort leaves no choice: two sorted arrangements
    of the same transactions are the same list. *)
Lemma listing_order_unique (l1 l2 : list Stored.t) :
  NoDup (map sortKey l1) ->
  Permutation l1 l2 ->
  StronglySorted (fun a b => newerFirst a b = true) l1 ->
  StronglySorted (fun a b => newerFirst a b = true) l2 ->
  l1 = l2.
Proof.
  revert l2. induction l1 as [|a l1 IH]; intros l2 Hnd Hp H1 H2.
  - apply Permutation_nil in Hp. now subst.
  - destruct l2 as [|b l2];
      [apply Permutation_sym, Permutation_nil in Hp; discriminate|].
    inversion Hnd as [|? ? Hfresh Hnd']; subst.
    inversion H1 as [|? ? Hs1 Hall1]; subst.
    inversion H2 as [|? ? Hs2 Hall2]; subst.
    assert (Eab : a = b).
    { assert (Ha : In a (b :: l2))
        by (apply (Permutation_in _ Hp); now left).
      assert (Hb : In b (a :: l1))
        by (apply (Permutation_in _ (Permutation_sym Hp)); now left).
      destruct Ha as [Ha|Ha]; [now symmetry|].
      destruct Hb as [Hb|Hb]; [exact Hb|].
      exfalso. apply Hfresh.
      rewrite Forall_forall in Hall1, Hall2.
      rewrite (newerFirst_same_key a b (Hall1 b Hb) (Hall2 a Ha)).
      now apply in_map. }
    subst b. f_equal. apply IH; try assumption.
    now apply Permutation_cons_inv in Hp.
Qed.

(** X21.  When no two stored transactions have the same [date] and
    [createdAt], the sort fixes the order of the listing (every sorted
    arrangement of the matches is the same list), and requesting the pages
    1, 2, ..., [totalPages] one after the other shows every matching
    transaction exactly once, in that order (as long as the store does not
    change in between). *)
Theorem pages_cover_the_matches (regexTest : string -> string -> bool)
    (q : ListQuery.t) (user : ObjectId) (store : list Stored.t)
    (bounds : option Z * option Z) :
  dateBounds q = Some bounds ->
  NoDup (map sortKey store) ->
  let matching := filter (listFilter regexTest q user bounds) store in
  let found := sortBy newerFirst matching in
  let pages :=
    Z.to_nat (ceilDiv (Z.of_nat (List.length found))
                      (Z.pos (ListQuery.limit q))) in
  (forall sorted,
     Permutation sorted matching ->
     StronglySorted (fun a b => newerFirst a b = true) sorted ->
     sorted = found)
  /\ List.concat (map (fun k => listed (getTransactions regexTest
                                     (atPage (Pos.of_nat k) q) user store))
                 (seq 1 pages))
     = found.
Proof.
  intros Hb Hkeys matching found pages. split.
  - intros sorted Hp Hs. symmetry.
    pose proof (sortBy_perm newerFirst matching) as Hperm. fold found in Hperm.
    apply listing_order_unique.
    + apply (Permutation_NoDup
               (Permutation_map sortKey (Permutation_sym Hperm))).
      now apply keys_of_matches.
    + now rewrite Hperm, Hp.
    + apply sortBy_sorted; [apply newerFirst_total|apply newerFirst_trans].
    + exact Hs.
  - assert (E : forall k,
      listed (getTransactions regexTest (atPage (Pos.of_nat k) q) user store)
      = pageOf (Pos.of_nat k) (ListQuery.limit q) found).
    { intros k. unfold getTransactions.
      change (dateBounds (atPage (Pos.of_nat k) q)) with (dateBounds q).
      rewrite Hb. reflexivity. }
    rewrite (map_ext _ _ E), pages_up_to.
    apply firstn_all2. unfold pages, ceilDiv.
    set (len := List.length found). set (L := ListQuery.limit q).
    pose proof (Z.div_mod (Z.of_nat len + Z.pos L - 1) (Z.pos L) ltac:(lia))
      as Hd.
    pose proof (Z.mod_pos_bound (Z.of_nat len + Z.pos L - 1) (Z.pos L)
                  ltac:(lia)) as Hm.
    set (c := (Z.of_nat len + Z.pos L - 1) / Z.pos L) in *.
    assert (Hc : 0 <= c) by (apply Z.div_pos; lia).
    assert (Hn : Z.of_nat len <= c * Z.pos L) by nia.
    apply Nat2Z.inj_le. rewrite Nat2Z.inj_mul, Z2Nat.id by lia.
    rewrite positive_nat_Z. exact Hn.
Qed.

(** X22.  The controller reckons [hasNext] as [pageNum < totalPages], the
    route handler of the same listing as [page * limit < total]; the two
    agree for every page, limit and total. *)
Theorem hasNext_route_agrees (pageNum limitNum : positive) (total : nat) :
  hasNext (paginationOf (Z.pos pageNum) (Z.pos limitNum) (Z.of_nat total))
  = routeHasNext (Z.pos pageNum) (Z.pos limitNum) (Z.of_nat total).
Proof.
  unfold routeHasNext. cbn [hasNext paginationOf]. apply more_pages. lia.
Qed.

Lemma findStored_some (id user : ObjectId) (store : list Stored.t)
    (s : Stored.t) :
  findStored id user store = Some s ->
  In s store /\ Stored.id s = id
  /\ Transaction.userId (Stored.fields s) = user.
Proof.
  intros H. apply find_some in H. destruct H as [Hin Hb].
  apply andb_true_iff in Hb. destruct Hb as [Hi Hu].
  apply Nat.eqb_eq in Hi, Hu. auto.
Qed.

Lemma removeStored_spec (id user : ObjectId) (store : list Stored.t)
    (s : Stored.t) :
  NoDup (map Stored.id store) ->
  findStored id user store = Some s ->
  forall x, In x (removeStored id user store) <-> In x store /\ x <> s.
Proof.
  intros Hnd Hf. induction store as [|h rest IH]; [discriminate|].
  inversion Hnd as [|? ? Hnot Hnd']; subst.
  unfold findStored in Hf. cbn [find removeStored] in *.
  destruct (Nat.eqb (Stored.id h) id
            && Nat.eqb (Transaction.userId (Stored.fields h)) user) eqn:Eh.
  - injection Hf as <-. intros x. split.
    + intros Hin. split; [now right|]. intros ->. apply Hnot.
      now apply in_map.
    + intros [[->|Hin] Hne]; [now contradiction Hne|exact Hin].
  - intros x. cbn [In]. rewrite (IH Hnd' Hf x).
    destruct (findStored_some id user rest s Hf) as (Hin & Hi & Hu).
    split.
    + intros [<-|[Hx Hne]]; [|tauto]. split; [now left|].
      intros ->. rewrite Hi, Hu, !Nat.eqb_refl in Eh. discriminate.
    + intros [[<-|Hx] Hne]; [now left|right; tauto].
Qed.

Lemma same_id_same_stored (store : list Stored.t) (a b : Stored.t) :
  NoDup (map Stored.id store) -> In a store -> In b store ->
  Stored.id a = Stored.id b -> a = b.
Proof.
  induction store as [|x rest IH]; [contradiction|]. cbn [map].
  intros H Ha Hb E. inversion H as [|? ? Hfresh Hrest]; subst.
  destruct Ha as [->|Ha], Hb as [->|Hb]; try reflexivity.
  - exfalso. apply Hfresh. rewrite E. now apply in_map.
  - exfalso. apply Hfresh. rewrite <- E. now apply in_map.
  - now apply IH.
Qed.

Lemma findStored_other (id user id' user' : ObjectId)
    (store : list Stored.t) :
  id' <> id ->
  findStored id' user' (removeStored id user store)
  = findStored id' user' store.
Proof.
  intros Hne. induction store as [|h rest IH]; [reflexivity|].
  unfold findStored in *. cbn [removeStored find].
  destruct (Nat.eqb_spec (Stored.id h) id) as [Ei|Ni]; cbn [andb].
  - destruct (Nat.eqb (Transaction.userId (Stored.fields h)) user).
    + replace (Nat.eqb (Stored.id h) id') with false
        by (symmetry; apply Nat.eqb_neq; congruence).
      reflexivity.
    + cbn [find]. now rewrite IH.
  - cbn [find]. now rewrite IH.
Qed.

(** X23.  Deleting a ledger transaction removes that transaction and no
    other: afterwards a request for it answers 404, and a request for any
    other id is answered as before. *)
Theorem deleteTransaction_then_get (id user : ObjectId)
    (store : list Stored.t) (s : Stored.t) :
  NoDup (map Stored.id store) ->
  findStored id user store = Some s ->
  let r := deleteTransaction id user store in
  statusCode (fst r) = 200
  /\ (forall x, In x (snd r) <-> In x store /\ x <> s)
  /\ getTransaction id user (snd r)
     = ({| statusCode := 404; message := "Transaction not found" |}, None)
  /\ (forall id' user', id' <> id ->
        getTransaction id' user' (snd r) = getTransaction id' user' store).
Proof.
  intros Hnd Hf r. unfold r, deleteTransaction. rewrite Hf. cbn [fst snd].
  pose proof (removeStored_spec id user store s Hnd Hf) as Hspec.
  split; [reflexivity|]. split; [exact Hspec|]. split.
  - unfold getTransaction.
    destruct (findStored id user (removeStored id user store)) as [x|] eqn:E;
      [|reflexivity].
    exfalso. apply findStored_some in E. destruct E as (Hx & Hi & _).
    apply Hspec in Hx. destruct Hx as [Hx Hdiff].
    destruct (findStored_some id user store s Hf) as (Hs & Hsi & _).
    apply Hdiff. apply (same_id_same_stored store); congruence.
  - intros id' user' Hne. unfold getTransaction.
    now rewrite findStored_other.
Qed.

(* ================================================================== *)
(** ** Further properties: the chat history *)
(* ================================================================== *)

(** X24.  [addMessage] appends the message and keeps the newest 100: the
    stored list has [min(n + 1, 100)] messages, ends with the new message,
    and is the end of the old list with the new message appended. *)
Theorem addMessage_keeps_newest (role content : string) (stamp now : Z)
    (this : Chat.t) :
  let added := Chat.mkMessage role content stamp in
  let kept := Chat.messages (addMessage role content stamp now this) in
  List.length kept = Nat.min (S (List.length (Chat.messages this))) 100
  /\ (exists front, kept = (front ++ [added])%list)
  /\ (exists dropped,
        (Chat.messages this ++ [added])%list = (dropped ++ kept)%list)
  /\ Chat.lastActive (addMessage role content stamp now this) = now.
Proof.
  cbv zeta. unfold addMessage. cbn [Chat.messages Chat.lastActive].
  set (added := Chat.mkMessage role content stamp).
  set (old := Chat.messages this).
  assert (Hlen : List.length (old ++ [added])%list = S (List.length old))
    by (rewrite length_app; cbn; lia).
  destruct (Nat.ltb_spec 100 (List.length (old ++ [added])%list))
    as [Hbig|Hsmall].
  - unfold jsSlice. rewrite Hlen. cbn [Z.ltb Z.compare].
    set (k := Z.to_nat (Z.max (Z.of_nat (S (List.length old)) + -100) 0)).
    assert (Hk : (k = S (List.length old) - 100)%nat) by (unfold k; lia).
    split; [rewrite length_skipn, Hlen; lia|]. split; [|split].
    + exists (skipn k old). rewrite skipn_app.
      replace (k - List.length old)%nat with 0%nat by lia. reflexivity.
    + exists (firstn k (old ++ [added])%list).
      now rewrite firstn_skipn.
    + reflexivity.
  - split; [rewrite Hlen; lia|]. split; [|split].
    + now exists old.
    + now exists [].
    + reflexivity.
Qed.

(** X25.  [getContext(limit)] returns the last [limit] messages (all of
    them when there are fewer) for a positive [limit], 10 by default; for
    [limit] 0 it returns every message, since [slice(-0)] is [slice(0)];
    for a negative [limit] it drops the first [-limit] messages. *)
Theorem getContext_spec (limit : option Z) (this : Chat.t) :
  let k := orKeep limit 10 in
  let all := Chat.messages this in
  let shown := getContext limit this in
  (exists dropped, all = (dropped ++ shown)%list)
  /\ (0 < k -> List.length shown = Nat.min (Z.to_nat k) (List.length all))
  /\ (k <= 0 -> shown = skipn (Z.to_nat (- k)) all)
  /\ (k = 0 -> shown = all).
Proof.
  cbv zeta. unfold getContext, jsSlice.
  set (k := orKeep limit 10). set (all := Chat.messages this).
  split; [|split; [|split]].
  - eexists. symmetry. apply firstn_skipn.
  - intros Hk. replace (- k <? 0) with true by (symmetry; apply Z.ltb_lt; lia).
    rewrite length_skipn. lia.
  - intros Hk.
    replace (- k <? 0) with false by (symmetry; apply Z.ltb_ge; lia).
    destruct (Z.le_gt_cases (- k) (Z.of_nat (List.length all))) as [Hs|Hl].
    + now rewrite Z.min_l by lia.
    + rewrite Z.min_r by lia. rewrite Nat2Z.id.
      rewrite !skipn_all2 by lia. reflexivity.
  - intros ->. cbn [Z.opp Z.ltb Z.compare]. rewrite Z.min_l by lia.
    reflexivity.
Qed.

(** X26.  [cleanupOldSessions(days)] deletes by the cutoff [now] minus
    [days] whole days (30 by default): a session active at or after the
    cutoff is always kept, and an unpinned session last active before it
    is always deleted, whether or not the query filter keeps the condition
    on the undeclared path [metadata.isPinned]. *)
Theorem cleanupOldSessions_cutoff (strictQuery : bool) (days : option Z)
    (now : Z) (sessions : list Chat.t) :
  let cutoff := now - orKeep days 30 * msPerDay in
  Z.abs now <= maxTime ->
  Z.abs cutoff <= maxTime ->
  exists kept,
    cleanupOldSessions strictQuery days now sessions = Normal kept
    /\ (forall s, In s kept -> In s sessions)
    /\ (forall s, In s sessions -> cutoff <= Chat.lastActive s -> In s kept)
    /\ (forall s, In s sessions -> Chat.lastActive s < cutoff ->
                  Chat.isPinned s <> Some true -> ~ In s kept).
Proof.
  intros cutoff Hnow Hcut. unfold cleanupOldSessions, newDate.
  rewrite (TimeClip_valid now Hnow).
  replace (jsSub (getDate (DateOf now)) (Some (orKeep days 30)))
    with (jsAdd (getDate (DateOf now)) (Some (- orKeep days 30)))
    by (cbn [getDate jsAdd jsSub]; f_equal; lia).
  rewrite setDate_plus.
  replace (now + - orKeep days 30 * msPerDay) with cutoff
    by (unfold cutoff; lia).
  rewrite (TimeClip_valid cutoff Hcut).
  eexists. split; [reflexivity|]. split; [|split].
  - intros s Hs. apply filter_In in Hs. tauto.
  - intros s Hs Hle. apply filter_In. split; [exact Hs|].
    replace (Chat.lastActive s <? cutoff) with false
      by (symmetry; apply Z.ltb_ge; lia).
    reflexivity.
  - intros s Hs Hlt Hpin Hkept. apply filter_In in Hkept.
    destruct Hkept as [_ Hb].
    replace (Chat.lastActive s <? cutoff) with true in Hb
      by (symmetry; now apply Z.ltb_lt).
    destruct strictQuery; [discriminate|].
    destruct (Chat.isPinned s) as [[|]|]; cbn in Hb;
      [now contradiction Hpin|discriminate|discriminate].
Qed.

End Host.

(* ================================================================== *)
(** ** Concrete runs, on a host in UTC *)
(* ================================================================== *)

(** Weekly, same weekday: seven days later. *)
Example weekly_same_day :
  calculateNextOccurrence 0
    (with_frequency weekly (with_days None (Some 5) None electricity)) cycle1
  = Some (DateOf (utc 2024 0 12 0 0)).
Proof. vm_compute. reflexivity. Qed.

(** Daily, with [endDate] twelve hours after the reference: no next
    occurrence. *)
Example daily_end_in_twelve_hours :
  calculateNextOccurrence 0 stipend cycle1 = None.
Proof. vm_compute. reflexivity. Qed.

(* ------------------------------------------------------------------ *)
(** *** C2: the monthly step from the 31st *)

(** C2.  For [dayOfMonth = 31] and reference 31 January,
    [calculateNextOccurrence] returns 31 March, in the common year 2023 and
    in the leap year 2024: [setMonth] carries 31 February over into March
    before the day is clamped, so the clamp is taken against March and
    February is skipped. *)
Theorem monthly_from_jan_31_skips_february :
  calculateNextOccurrence 0 (monthly31 2023) (utc 2023 0 31 3 0)
    = Some (DateOf (utc 2023 2 31 0 0))
  /\ calculateNextOccurrence 0 (monthly31 2024) (utc 2024 0 31 3 0)
    = Some (DateOf (utc 2024 2 31 0 0))
  /\ setMonth 0 (DateOf (utc 2023 0 31 0 0)) (Some 1)
     = DateOf (utc 2023 2 3 0 0)
  /\ setMonth 0 (DateOf (utc 2024 0 31 0 0)) (Some 1)
     = DateOf (utc 2024 2 2 0 0)
  /\ utc 2023 2 31 0 0 <> utc 2023 1 28 0 0
  /\ utc 2024 2 31 0 0 <> utc 2024 1 29 0 0.
Proof. vm_compute. repeat split; discriminate. Qed.

(* ------------------------------------------------------------------ *)
(** *** C4: the entry of a due template *)



(* ------------------------------------------------------------------ *)
(** *** C5: the selection *)

(** C5, counterexample.  On 6 January the template is active and its
    [nextOccurrence] is not after [now], yet the selection leaves it out:
    its [endDate] is before [now]. *)
Lemma selection_filters_on_end_date :
  In pastEnd [pastEnd]
  /\ isActive pastEnd = true
  /\ (exists n, nextOccurrence pastEnd = Some n /\ n <= cycle2)
  /\ ~ In pastEnd (getTransactionsToProcess [pastEnd] cycle2).
Proof.
  split; [now left|]. split; [reflexivity|]. split.
  - exists (utc 2024 0 5 0 0). split; [reflexivity|]. vm_compute. discriminate.
  - vm_compute. tauto.
Qed.

(* ------------------------------------------------------------------ *)
(** *** C6: the end-date test *)

(** C6, counterexample.  The computed date equals [endDate] (so it is
    "greater than or equal to" it), and the method returns it instead of
    [null]. *)
Lemma occurrence_at_end_date_is_returned :
  endDate endsTomorrow = Val (utc 2024 0 6 0 0)
  /\ candidateDate 0 endsTomorrow cycle1 = DateOf (utc 2024 0 6 0 0)
  /\ utc 2024 0 6 0 0 >= utc 2024 0 6 0 0
  /\ calculateNextOccurrence 0 endsTomorrow cycle1
     = Some (DateOf (utc 2024 0 6 0 0))
  /\ calculateNextOccurrence 0 endsTomorrow cycle1 <> None.
Proof. vm_compute. repeat split; discriminate. Qed.

(** C6, witness: the daily template [stipend], active and ending at noon
    of its due day. *)
Lemma calculateNextOccurrence_end_date_witness :
  isActive stipend = true
  /\ endDate stipend = Val (utc 2024 0 5 12 0)
  /\ (calculateNextOccurrence 0 stipend cycle1 = None <->
      exists c, candidateDate 0 stipend cycle1 = DateOf c
                /\ utc 2024 0 5 12 0 < c)
  /\ (candidateDate 0 stipend cycle1 = DateOf (utc 2024 0 5 12 0) ->
      calculateNextOccurrence 0 stipend cycle1
      = Some (DateOf (utc 2024 0 5 12 0))).
Proof.
  split; [reflexivity|]. split; [reflexivity|].
  apply (calculateNextOccurrence_end_date 0 stipend cycle1
           (utc 2024 0 5 12 0)); reflexivity.
Defined.

(* ------------------------------------------------------------------ *)
(** *** C7: a failing ledger write in a batch *)

(** C7.  The batch of 5 January: three templates are due; the ledger takes
    the entries of the first and the third and refuses that of the second,
    whose category is not one of the ledger's.  The cycle throws at its
    selection statement: no entry is written, no template is advanced, and
    the one error logged is that of the cycle, which names no template. *)
Theorem failing_batch_processes_nothing :
  let run := processRecurringTransactions 0 noFaults cycle1 threeDue in
  let write := fun rt =>
    fst (createTransaction 0 noFaults cycle1 (mockReq rt)
                           (mockRes "Failed to create transaction") []) in
  getTransactionsToProcess (recurring threeDue) cycle1
  = [electricity; rent; stipend]
  /\ write electricity = Normal tt
  /\ write rent = Throw (mkError "Failed to create transaction")
  /\ write stipend = Normal tt
  /\ fst run = Throw sessionTypeError
  /\ transactions (snd run) = []
  /\ recurring (snd run) = [electricity; rent; stipend]
  /\ errorLog (snd run) = [cycleError sessionTypeError]
  /\ logRecurringTransactionId (cycleError sessionTypeError) = None.
Proof. vm_compute. repeat split. Qed.

(* ------------------------------------------------------------------ *)
(** *** C8: updating the cadence *)

(** An update that does not name [nextOccurrence] returns and stores the
    template with the [nextOccurrence] it had. *)
Lemma update_keeps_nextOccurrence (v : bool) (id user : ObjectId)
    (body : Patch.t) (c c' : list doc) (code : Z) (d d' : doc) :
  Patch.nextOccurrence body = None ->
  findOne id user c = Some d ->
  updateRecurringTransaction v id user body c = (Responded code d', c') ->
  nextOccurrence d' = nextOccurrence d.
Proof.
  intros Hb Hf. unfold updateRecurringTransaction.
  destruct v; cbn; [|discriminate]. rewrite Hf.
  intros H. injection H as _ <- _. cbn. now rewrite Hb.
Qed.

(** C8.  On 5 January, changing the frequency of [daily6] to weekly on
    Wednesdays, or its start date to 1 February, through
    [updateRecurringTransaction] answers 200 with a template whose
    [nextOccurrence] is still Saturday 6 January; the [pre('save')] hook,
    given the same modified template, recomputes it (to Wednesday
    3 January, and to 1 February). *)
Theorem update_does_not_recompute_nextOccurrence :
  let now := utc 2024 0 5 12 0 in
  updateRecurringTransaction true 1%nat 7%nat toWeekly [daily6]
    = (Responded 200 (applyPatch toWeekly daily6), [applyPatch toWeekly daily6])
  /\ frequency (applyPatch toWeekly daily6) = weekly
  /\ nextOccurrence (applyPatch toWeekly daily6) = Some (utc 2024 0 6 0 0)
  /\ nextOccurrence (preSave 0 (modified true false false) now
                             (applyPatch toWeekly daily6))
     = Some (utc 2024 0 3 0 0)
  /\ updateRecurringTransaction true 1%nat 7%nat toFebruary [daily6]
    = (Responded 200 (applyPatch toFebruary daily6),
       [applyPatch toFebruary daily6])
  /\ startDate (applyPatch toFebruary daily6) = utc 2024 1 1 0 0
  /\ nextOccurrence (applyPatch toFebruary daily6) = Some (utc 2024 0 6 0 0)
  /\ nextOccurrence (preSave 0 (modified false true false) now
                             (applyPatch toFebruary daily6))
     = Some (utc 2024 1 1 0 0).
Proof. vm_compute. repeat split. Qed.

(* ------------------------------------------------------------------ *)
(** *** C9: reactivating a template past its end date *)

(** C9.  On 1 February 2024 the end date of [lapsed] has passed, and
    toggling it answers 200: the template is stored active, with
    [nextOccurrence] 2 January 2024 (one step from the stale value, not
    from [now]), and the selection does not pick it up. *)
Theorem reactivation_past_end_date_accepted :
  let now := utc 2024 1 1 0 0 in
  let reactivated :=
    with_nextOccurrence (Some (utc 2024 0 2 0 0)) (with_isActive true lapsed) in
  utc 2024 0 10 0 0 < now
  /\ toggleActiveStatus 0 now 5%nat 7%nat [lapsed]
     = (Responded 200 reactivated, [reactivated])
  /\ isActive reactivated = true
  /\ getTransactionsToProcess [reactivated] now = [].
Proof. vm_compute. repeat split. Qed.

(* ------------------------------------------------------------------ *)
(** *** C10: deactivation after the last occurrence *)


(* ================================================================== *)
(** ** Further properties at concrete inputs *)
(* ================================================================== *)

(** Daily, from 5 January 2024: 6 January. *)
Lemma daily_next_occurrence_witness :
  isActive electricity = true
  /\ frequency electricity = daily
  /\ nextOccurrence electricity = Some (utc 2024 0 5 0 0)
  /\ Z.abs (utc 2024 0 5 0 0) <= maxTime - msPerDay
  /\ calculateNextOccurrence 0 electricity cycle1
     = Some (DateOf (utc 2024 0 5 0 0 + msPerDay)).
Proof.
  assert (H : Z.abs (utc 2024 0 5 0 0) <= maxTime - msPerDay) by by_leb.
  do 4 (split; [first [assumption | reflexivity]|]).
  exact (daily_next_occurrence 0 electricity cycle1 (utc 2024 0 5 0 0)
           eq_refl eq_refl eq_refl H).
Defined.

(** Weekly on Mondays, from Friday 5 January 2024: three days on. *)
Lemma weekly_next_occurrence_witness :
  isActive mondays = true
  /\ frequency mondays = weekly
  /\ dayOfWeek mondays = Some 1
  /\ 0 <= 1 <= 6
  /\ nextOccurrence mondays = Some (utc 2024 0 5 0 0)
  /\ Z.abs (utc 2024 0 5 0 0) <= maxTime - 7 * msPerDay
  /\ exists k,
       1 <= k <= 7
       /\ WeekDay (LocalTime 0 (utc 2024 0 5 0 0 + k * msPerDay)) = 1
       /\ (forall j, 1 <= j < k ->
             WeekDay (LocalTime 0 (utc 2024 0 5 0 0 + j * msPerDay)) <> 1)
       /\ calculateNextOccurrence 0 mondays cycle1
          = Some (DateOf (utc 2024 0 5 0 0 + k * msPerDay)).
Proof.
  assert (H : Z.abs (utc 2024 0 5 0 0) <= maxTime - 7 * msPerDay) by by_leb.
  assert (Hd : 0 <= 1 <= 6) by lia.
  do 6 (split; [first [assumption | reflexivity]|]).
  exact (weekly_next_occurrence 0 mondays cycle1 (utc 2024 0 5 0 0) 1
           eq_refl eq_refl eq_refl Hd eq_refl H).
Defined.

(** Monthly on the 31st, from 15 January 2024: 29 February. *)
Lemma monthly_next_occurrence_witness :
  let t := LocalTime 0 (utc 2024 0 15 0 0) in
  isActive monthEnd = true
  /\ frequency monthEnd = monthly
  /\ nextOccurrence monthEnd = Some (utc 2024 0 15 0 0)
  /\ dayOfMonth monthEnd = Some 31
  /\ 1 <= 31 <= 31
  /\ DateFromTime t <= 28
  /\ 100 <= YearFromTime t <= 200000
  /\ Z.abs 0 <= msPerDay
  /\ exists r,
       YearFromTime (LocalTime 0 r) = 2024
       /\ MonthFromTime (LocalTime 0 r) = 1
       /\ DateFromTime (LocalTime 0 r) = 29
       /\ TimeWithinDay (LocalTime 0 r) = 0
       /\ calculateNextOccurrence 0 monthEnd cycle1 = Some (DateOf r).
Proof.
  intros t.
  assert (H1 : 1 <= 31 <= 31) by lia.
  assert (H2 : DateFromTime t <= 28) by by_leb.
  assert (H3 : 100 <= YearFromTime t <= 200000) by (split; by_leb).
  assert (H4 : Z.abs 0 <= msPerDay) by by_leb.
  do 8 (split; [first [assumption | reflexivity]|]).
  exact (monthly_next_occurrence 0 monthEnd cycle1 (utc 2024 0 15 0 0) 31
           eq_refl eq_refl eq_refl eq_refl H1 H2 H3 H4).
Defined.

(** Yearly, from 29 February 2024, 09:30: 1 March 2025, 09:30. *)
Lemma yearly_next_occurrence_witness :
  let t := LocalTime 0 (utc 2024 1 29 9 30) in
  isActive leapDay = true
  /\ frequency leapDay = yearly
  /\ nextOccurrence leapDay = Some (utc 2024 1 29 9 30)
  /\ 100 <= YearFromTime t <= 200000
  /\ Z.abs 0 <= msPerDay
  /\ exists r,
       YearFromTime (LocalTime 0 r) = 2025
       /\ (MonthFromTime (LocalTime 0 r) = 2
           /\ DateFromTime (LocalTime 0 r) = 1)
       /\ TimeWithinDay (LocalTime 0 r) = TimeWithinDay t
       /\ calculateNextOccurrence 0 leapDay cycle1 = Some (DateOf r).
Proof.
  intros t.
  assert (H3 : 100 <= YearFromTime t <= 200000) by (split; by_leb).
  assert (H4 : Z.abs 0 <= msPerDay) by by_leb.
  do 5 (split; [first [assumption | reflexivity]|]).
  exact (yearly_next_occurrence 0 leapDay cycle1 (utc 2024 1 29 9 30)
           eq_refl eq_refl eq_refl H3 H4).
Defined.

(** A template saved as new with a start date of 1 February, on 5 January:
    whatever [nextOccurrence] it carried, it gets 1 February. *)
Lemma preSave_restarts_from_startDate_witness :
  isNew newDocument || modifiedFrequency newDocument
    || modifiedStartDate newDocument || modifiedEndDate newDocument = true
  /\ preSave 0 newDocument cycle1
             (with_nextOccurrence (Some (utc 2023 0 1 0 0)) gym)
     = preSave 0 newDocument cycle1 gym
  /\ (cycle1 <= startDate gym ->
      nextOccurrence (preSave 0 newDocument cycle1 gym)
      = Some (startDate gym)).
Proof.
  split; [reflexivity|].
  exact (preSave_restarts_from_startDate 0 newDocument cycle1 gym
           (Some (utc 2023 0 1 0 0)) eq_refl).
Defined.

(** A daily template that started on 1 January, saved as new on 5 January:
    its next occurrence is 2 January. *)
Lemma preSave_past_start_daily_witness :
  isNew newDocument || modifiedFrequency newDocument
    || modifiedStartDate newDocument || modifiedEndDate newDocument = true
  /\ isActive electricity = true
  /\ frequency electricity = daily
  /\ (forall e, endDate electricity <> Val e)
  /\ startDate electricity < cycle1
  /\ Z.abs (startDate electricity) <= maxTime - msPerDay
  /\ nextOccurrence (preSave 0 newDocument cycle1 electricity)
     = Some (startDate electricity + msPerDay).
Proof.
  assert (H1 : forall e, endDate electricity <> Val e) by (intros e; discriminate).
  assert (H2 : startDate electricity < cycle1) by by_ltb.
  assert (H3 : Z.abs (startDate electricity) <= maxTime - msPerDay) by by_leb.
  do 6 (split; [first [assumption | reflexivity]|]).
  exact (preSave_past_start_daily 0 newDocument cycle1 electricity
           eq_refl eq_refl eq_refl H1 H2 H3).
Defined.

(** The deactivated template stays as it is through the cycle of
    5 January. *)
Lemma cycle_leaves_unselected_untouched_witness :
  NoDup (map _id (recurring withLapsed))
  /\ In lapsed (recurring withLapsed)
  /\ dueFilter cycle1 lapsed = false
  /\ In lapsed
        (recurring (snd (processRecurringTransactions 0 noFaults cycle1
                           withLapsed))).
Proof.
  assert (H1 : NoDup (map _id (recurring withLapsed))) by distinct_ids.
  assert (H2 : In lapsed (recurring withLapsed)) by (right; left; reflexivity).
  do 3 (split; [first [assumption | reflexivity]|]).
  exact (cycle_leaves_unselected_untouched 0 noFaults cycle1 withLapsed lapsed
           H1 H2 eq_refl).
Defined.

(** Creating the gym template on 5 January with a store that rejects the
    commit: no template, one ledger entry dated 1 February. *)
Lemma create_commit_failure_keeps_entry_witness :
  let entry := newTransaction cycle1 (initialMockReq gym) in
  let r := createRecurringTransaction 0 commitRejected Accepted 9%nat cycle1
             7%nat gymBody emptyWorld in
  missingCadenceField (CreateBody.paths gymBody) = false
  /\ buildTemplate 9%nat 7%nat cycle1 (CreateBody.paths gymBody)
     = Some (with_nextOccurrence (Some cycle1) gym)
  /\ CreateBody.createInitialTransaction gymBody <> Some false
  /\ preSave 0 newDocument cycle1 (with_nextOccurrence (Some cycle1) gym) = gym
  /\ validateTransaction 0 cycle1 entry
     && negb (insertFails commitRejected entry) = true
  /\ commitFails commitRejected = true
  /\ (exists e, fst r = PassedToNext e None)
  /\ recurring (snd r) = recurring emptyWorld
  /\ transactions (snd r) = (transactions emptyWorld ++ [entry])%list.
Proof.
  intros entry r.
  assert (H1 : CreateBody.createInitialTransaction gymBody <> Some false)
    by discriminate.
  assert (H2 : validateTransaction 0 cycle1 entry
               && negb (insertFails commitRejected entry) = true)
    by (vm_compute; reflexivity).
  split; [reflexivity|]. split; [reflexivity|]. split; [exact H1|].
  split; [vm_compute; reflexivity|]. split; [exact H2|].
  split; [reflexivity|].
  exact (create_commit_failure_keeps_entry 0 commitRejected 9%nat cycle1
           7%nat gymBody emptyWorld (with_nextOccurrence (Some cycle1) gym)
           eq_refl eq_refl H1 H2 eq_refl).
Defined.

(** A request for the monthly rent, accepted by the template schema. *)
Lemma create_unlisted_category_fails_witness :
  let r := createRecurringTransaction 0 noFaults Accepted 9%nat cycle1
             7%nat rentBody emptyWorld in
  Patch.category (CreateBody.paths rentBody) = Some "Rent/Mortgage"
  /\ In (trim "Rent/Mortgage") ["Rent/Mortgage"; "Subscriptions"]
  /\ CreateBody.createInitialTransaction rentBody <> Some false
  /\ inEnum (trim "Rent/Mortgage") recurringCategories = true
  /\ inEnum (trim "Rent/Mortgage") transactionCategories = false
  /\ (exists e code, fst r = PassedToNext e code)
  /\ recurring (snd r) = recurring emptyWorld
  /\ transactions (snd r) = transactions emptyWorld.
Proof.
  intros r.
  assert (H1 : In (trim "Rent/Mortgage") ["Rent/Mortgage"; "Subscriptions"])
    by (left; reflexivity).
  assert (H2 : CreateBody.createInitialTransaction rentBody <> Some false)
    by discriminate.
  do 3 (split; [first [assumption | reflexivity]|]).
  exact (create_unlisted_category_fails 0 noFaults Accepted 9%nat cycle1
           7%nat rentBody emptyWorld "Rent/Mortgage" eq_refl H1 H2).
Defined.

(** User 8 asks for template 1, which belongs to user 7. *)
Lemma foreign_template_not_found_witness :
  let notFound := mkError "No recurring transaction found with that ID" in
  (forall d, In d (recurring oneDue) -> _id d = 1%nat -> userId d <> 8%nat)
  /\ getRecurringTransaction 1%nat 8%nat (recurring oneDue)
     = PassedToNext notFound (Some 404)
  /\ updateRecurringTransaction true 1%nat 8%nat toWeekly (recurring oneDue)
     = (PassedToNext notFound (Some 404), recurring oneDue)
  /\ toggleActiveStatus 0 cycle1 1%nat 8%nat (recurring oneDue)
     = (PassedToNext notFound (Some 404), recurring oneDue)
  /\ deleteRecurringTransaction noFaults 1%nat 8%nat oneDue
     = (Forwarded notFound (Some 404), oneDue).
Proof.
  intros notFound.
  assert (H : forall d, In d (recurring oneDue) -> _id d = 1%nat ->
                        userId d <> 8%nat).
  { intros d [<-|[]] _. discriminate. }
  split; [exact H|].
  exact (foreign_template_not_found 0 noFaults cycle1 1%nat 8%nat toWeekly
           oneDue H).
Defined.

(** Deleting the rent template out of the three. *)
Lemma delete_removes_the_template_witness :
  let r := deleteRecurringTransaction noFaults 2%nat 7%nat threeDue in
  NoDup (map _id (recurring threeDue))
  /\ findOne 2%nat 7%nat (recurring threeDue) = Some rent
  /\ commitFails noFaults = false
  /\ fst r = Answered 204
  /\ (forall x, In x (recurring (snd r)) <->
                In x (recurring threeDue) /\ x <> rent)
  /\ transactions (snd r) = transactions threeDue
  /\ getRecurringTransaction 2%nat 7%nat (recurring (snd r))
     = PassedToNext (mkError "No recurring transaction found with that ID")
                    (Some 404).
Proof.
  intros r.
  assert (H1 : NoDup (map _id (recurring threeDue))) by distinct_ids.
  do 3 (split; [first [assumption | reflexivity]|]).
  exact (delete_removes_the_template noFaults 2%nat 7%nat threeDue rent
           H1 eq_refl eq_refl).
Defined.


(** Pausing the electricity template on 5 January and resuming it on
    8 January: its next occurrence becomes 6 January, with no entry for
    5 January. *)
Lemma pause_resume_moves_one_day_witness :
  let c := recurring oneDue in
  let r1 := toggleActiveStatus 0 cycle1 1%nat 7%nat c in
  let r2 := toggleActiveStatus 0 (utc 2024 0 8 0 0) 1%nat 7%nat (snd r1) in
  let resumed :=
    with_nextOccurrence (Some (utc 2024 0 5 0 0 + msPerDay)) electricity in
  NoDup (map _id c)
  /\ findOne 1%nat 7%nat c = Some electricity
  /\ isActive electricity = true
  /\ frequency electricity = daily
  /\ nextOccurrence electricity = Some (utc 2024 0 5 0 0)
  /\ (forall e, endDate electricity <> Val e)
  /\ utc 2024 0 5 0 0 < utc 2024 0 8 0 0
  /\ Z.abs (utc 2024 0 5 0 0) <= maxTime - msPerDay
  /\ fst r2 = Responded 200 resumed
  /\ snd r2 = replaceDoc resumed c.
Proof.
  intros c r1 r2 resumed.
  assert (H1 : NoDup (map _id c)) by distinct_ids.
  assert (H2 : forall e, endDate electricity <> Val e)
    by (intros e; discriminate).
  assert (H3 : utc 2024 0 5 0 0 < utc 2024 0 8 0 0) by by_ltb.
  assert (H4 : Z.abs (utc 2024 0 5 0 0) <= maxTime - msPerDay) by by_leb.
  do 8 (split; [first [assumption | reflexivity]|]).
  exact (pause_resume_moves_one_day 0 cycle1 (utc 2024 0 8 0 0) 1%nat 7%nat
           c electricity (utc 2024 0 5 0 0)
           H1 eq_refl eq_refl eq_refl eq_refl H2 H3 H4).
Defined.

(** Page 1 of three January transactions, two a page. *)
Lemma getTransactions_page_witness :
  let shown := [groceries 2%nat 9; groceries 3%nat 5] in
  let pg := paginationOf 1 2 3 in
  getTransactions 0 noMatch firstTwo 7%nat januaryLedger = inl (shown, pg)
  /\ (List.length shown <= Pos.to_nat (ListQuery.limit firstTwo))%nat
  /\ (forall s, In s shown ->
        In s januaryLedger
        /\ Transaction.userId (Stored.fields s) = 7%nat
        /\ (nonEmpty (ListQuery.search firstTwo) = None ->
            Transaction.isFromRecurring (Stored.fields s) = false))
  /\ StronglySorted (fun a b => newerFirst a b = true) shown
  /\ (hasNext pg = true <->
      listed (getTransactions 0 noMatch
                (atPage (Pos.succ (ListQuery.page firstTwo)) firstTwo)
                7%nat januaryLedger) <> []).
Proof.
  intros shown pg.
  assert (H : getTransactions 0 noMatch firstTwo 7%nat januaryLedger
              = inl (shown, pg)) by (vm_compute; reflexivity).
  split; [exact H|].
  exact (getTransactions_page 0 noMatch firstTwo 7%nat januaryLedger
           shown pg H).
Defined.

(** The two pages of the three January transactions. *)
Lemma pages_cover_the_matches_witness :
  let matching :=
    filter (listFilter noMatch firstTwo 7%nat (None, None)) januaryLedger in
  let found := sortBy newerFirst matching in
  let pages :=
    Z.to_nat (ceilDiv (Z.of_nat (List.length found))
                      (Z.pos (ListQuery.limit firstTwo))) in
  dateBounds 0 firstTwo = Some (None, None)
  /\ NoDup (map sortKey januaryLedger)
  /\ (forall sorted,
        Permutation sorted matching ->
        StronglySorted (fun a b => newerFirst a b = true) sorted ->
        sorted = found)
  /\ List.concat
       (map (fun k => listed (getTransactions 0 noMatch
                                (atPage (Pos.of_nat k) firstTwo) 7%nat
                                januaryLedger))
            (seq 1 pages))
     = found.
Proof.
  intros matching found pages.
  assert (H : NoDup (map sortKey januaryLedger)).
  { vm_compute. repeat constructor; cbn; intuition discriminate. }
  split; [reflexivity|]. split; [exact H|].
  exact (pages_cover_the_matches 0 noMatch firstTwo 7%nat januaryLedger
           (None, None) eq_refl H).
Defined.

(** Deleting transaction 2 of the January ledger. *)
Lemma deleteTransaction_then_get_witness :
  let r := deleteTransaction 2%nat 7%nat januaryLedger in
  NoDup (map Stored.id januaryLedger)
  /\ findStored 2%nat 7%nat januaryLedger = Some (groceries 2%nat 9)
  /\ statusCode (fst r) = 200
  /\ (forall x, In x (snd r) <->
                In x januaryLedger /\ x <> groceries 2%nat 9)
  /\ getTransaction 2%nat 7%nat (snd r)
     = ({| statusCode := 404; message := "Transaction not found" |}, None)
  /\ (forall id' user', id' <> 2%nat ->
        getTransaction id' user' (snd r)
        = getTransaction id' user' januaryLedger).
Proof.
  intros r.
  assert (H1 : NoDup (map Stored.id januaryLedger)) by distinct_ids.
  do 2 (split; [first [assumption | reflexivity]|]).
  exact (deleteTransaction_then_get 2%nat 7%nat januaryLedger
           (groceries 2%nat 9) H1 eq_refl).
Defined.

(** The clean-up of 5 January 2024 with the default of 30 days. *)
Lemma cleanupOldSessions_cutoff_witness :
  let cutoff := cycle1 - orKeep None 30 * msPerDay in
  Z.abs cycle1 <= maxTime
  /\ Z.abs cutoff <= maxTime
  /\ exists kept,
       cleanupOldSessions 0 false None cycle1 chatSessions = Normal kept
       /\ (forall s, In s kept -> In s chatSessions)
       /\ (forall s, In s chatSessions -> cutoff <= Chat.lastActive s ->
                     In s kept)
       /\ (forall s, In s chatSessions -> Chat.lastActive s < cutoff ->
                     Chat.isPinned s <> Some true -> ~ In s kept).
Proof.
  intros cutoff.
  assert (H1 : Z.abs cycle1 <= maxTime) by by_leb.
  assert (H2 : Z.abs cutoff <= maxTime) by by_leb.
  do 2 (split; [first [assumption | reflexivity]|]).
  exact (cleanupOldSessions_cutoff 0 false None cycle1 chatSessions H1 H2).
Defined.
